(** * Availability computation of calendaro ([src/lib/availability.ts])

    A shallow embedding of the slot generator, the conflict filter and the
    two aggregators ([computeAvailableDates], [computeAvailableSlots]),
    followed by the properties the specification states about them.

    Modelling choices, fixed once for the whole development:
    - a [Date] is its [getTime()] value, an integer number of milliseconds
      since the epoch, and a duration is a whole number of minutes.  Integer
      arithmetic is the arithmetic of doubles as long as every difference of
      two instants and every product stays below 2^53 in absolute value;
      statements about ranges that may exceed this say so in a hypothesis.
      Invalid dates and fractional durations are outside the model, the
      duration [-0] has a definition of its own, and [parseISO] is the
      identity on instants that are already resolved (the records below
      hold the parsed instant);
    - the date-fns helpers work in one reference time base without
      daylight-saving shifts (UTC), so a day is exactly 86 400 000 ms.
      Statements that have to hold for days of 23 or 25 hours as well refer
      to a day through [startOfDay] and [endOfDay] only;
    - [new Date()] reads an ambient clock, which is explicit state here;
    - [Array.from({length: n}, f)] follows ECMAScript: the length goes
      through ToLength and the array constructor raises [RangeError] above
      2^32 - 1. *)

From Stdlib Require Import ZArith List Bool Lia String Ascii.
From Stdlib Require Import DecimalString.
From Stdlib Require Import Sorting.Sorted Sorting.Permutation.
Import ListNotations.
Local Open Scope Z_scope.

(* ================================================================== *)
(** * JavaScript fragment *)
(* ================================================================== *)

Module JS.

Inductive error : Type := RangeError.

(** The outcome of evaluating an expression that may throw. *)
Inductive result (A : Type) : Type :=
| Ok (a : A)
| Throw (e : error).
Arguments Ok {A} a.
Arguments Throw {A} e.

Definition bind {A B} (r : result A) (k : A -> result B) : result B :=
  match r with
  | Ok a => k a
  | Throw e => Throw e
  end.

(** The numbers that can reach [Array.from] as a length: the quotient of
    two integers, which is infinite or NaN when the divisor is zero. *)
Inductive number : Type :=
| Finite (z : Z)
| PosInfinity
| NegInfinity
| NaN.

(** [x / y] on integers, before rounding: only the zero divisor matters. *)
Definition quotient (round : Z -> Z -> Z) (x y : Z) : number :=
  if y =? 0 then
    if 0 <? x then PosInfinity
    else if x <? 0 then NegInfinity
    else NaN
  else Finite (round x y).

(** [Math.floor(x / y)]. *)
Definition floor_div : Z -> Z -> number := quotient Z.div.


(** [Math.ceil(x / y)]. *)
Definition ceil_div : Z -> Z -> number :=
  quotient (fun x y => - ((- x) / y)).

Definition plus (n : number) (k : Z) : number :=
  match n with
  | Finite z => Finite (z + k)
  | other => other
  end.

(** ToLength of ECMAScript: NaN and everything not positive become 0,
    the rest is capped at 2^53 - 1. *)
Definition ToLength (n : number) : Z :=
  match n with
  | Finite z => if z <=? 0 then 0 else Z.min z (2 ^ 53 - 1)
  | PosInfinity => 2 ^ 53 - 1
  | NegInfinity => 0
  | NaN => 0
  end.

Definition max_array_length : Z := 2 ^ 32 - 1.

(** The indices [0; 1; ...; n - 1]. *)
Definition indices (n : Z) : list Z :=
  List.map Z.of_nat (seq 0 (Z.to_nat n)).

(** [Array.from({ length }, (_, i) => f i)]. *)
Definition Array_from {A} (length : number) (f : Z -> A) : result (list A) :=
  let len := ToLength length in
  if max_array_length <? len then Throw RangeError
  else Ok (List.map f (indices len)).

(** [xs.some(f)] for a callback that may throw: left to right, stopping at
    the first element the callback accepts. *)
Fixpoint some {A} (f : A -> result bool) (xs : list A) : result bool :=
  match xs with
  | [] => Ok false
  | x :: rest =>
      match f x with
      | Ok true => Ok true
      | Ok false => some f rest
      | Throw e => Throw e
      end
  end.

(** [xs.filter(f)] for a callback that may throw. *)
Fixpoint filter {A} (f : A -> result bool) (xs : list A) : result (list A) :=
  match xs with
  | [] => Ok []
  | x :: rest =>
      bind (f x) (fun keep =>
      bind (filter f rest) (fun kept =>
      Ok (if keep then x :: kept else kept)))
  end.

(** [xs.flatMap(f)] for a callback that may throw. *)
Fixpoint flatMap {A B} (f : A -> result (list B)) (xs : list A)
  : result (list B) :=
  match xs with
  | [] => Ok []
  | x :: rest =>
      bind (f x) (fun ys =>
      bind (flatMap f rest) (fun yss =>
      Ok (ys ++ yss)))
  end.

(** [xs.map(f)] applied to a computed array. *)
Definition map {A B} (f : A -> B) (r : result (list A)) : result (list B) :=
  bind r (fun xs => Ok (List.map f xs)).

End JS.

Import JS (Ok, Throw, RangeError).

(* ================================================================== *)
(** * date-fns fragment, in the reference time base *)
(* ================================================================== *)

(** A valid [Date]: milliseconds since the epoch. *)
Definition Date : Type := Z.

Module DateFns.

Definition msPerMinute : Z := 60000.
Definition msPerDay : Z := 86400000.

Definition startOfDay (d : Date) : Date := d - d mod msPerDay.
Definition endOfDay (d : Date) : Date := startOfDay d + (msPerDay - 1).
Definition addMinutes (d : Date) (amount : Z) : Date := d + amount * msPerMinute.
Definition addDays (d : Date) (amount : Z) : Date := d + amount * msPerDay.

(** [parseISO(s)]: the records below hold, for each ISO string, the instant
    it denotes, and parsing reads it off. *)
Definition parseISO (instant : Date) : Date := instant.

(** [isWithinInterval(d, {start, end})]; every interval the module passes
    is a day, whose start is not after its end. *)
Definition isWithinInterval (d : Date) (start_ end_ : Date) : bool :=
  (start_ <=? d) && (d <=? end_).

(** Year, month and day of the proleptic Gregorian calendar for a number
    of days since 1970-01-01. *)
Definition civil (days : Z) : Z * Z * Z :=
  let z := days + 719468 in
  let era := z / 146097 in
  let doe := z - era * 146097 in
  let yoe := (doe - doe / 1460 + doe / 36524 - doe / 146096) / 365 in
  let doy := doe - (365 * yoe + yoe / 4 - yoe / 100) in
  let mp := (5 * doy + 2) / 153 in
  let d := doy - (153 * mp + 2) / 5 + 1 in
  let m := if mp <? 10 then mp + 3 else mp - 9 in
  let y := yoe + era * 400 + (if m <=? 2 then 1 else 0) in
  (y, m, d).

(** [addLeadingZeros(n, width)] for a number that is not negative. *)
Definition addLeadingZeros (n : Z) (width : nat) : string :=
  let digits := NilZero.string_of_uint (N.to_uint (Z.to_N n)) in
  let missing := (width - String.length digits)%nat in
  String.append (String.concat EmptyString (repeat "0"%string missing)) digits.

(** [format(d, "yyyy-MM-dd")]: the year of the era, at least four digits. *)
Definition format_yyyy_MM_dd (d : Date) : string :=
  let '(y, m, dd) := civil (d / msPerDay) in
  let yearOfEra := if 0 <? y then y else 1 - y in
  (addLeadingZeros yearOfEra 4 ++ "-" ++
   addLeadingZeros m 2 ++ "-" ++ addLeadingZeros dd 2)%string.

End DateFns.

Import DateFns.

(* ================================================================== *)
(** * The ambient clock *)
(* ================================================================== *)

(** What [new Date()] will answer: the instant of the n-th reading, and how
    many readings were made so far. *)
Record Clock : Type := {
  reading : nat -> Date;
  reads : nat
}.

(** The instant the next [new Date()] yields. *)
Definition currentTime (c : Clock) : Date := reading c (reads c).

(** A computation that may read the clock and may throw. *)
Definition IO (A : Type) : Type := Clock -> JS.result A * Clock.

Definition newDate : IO Date :=
  fun c => (Ok (currentTime c), {| reading := reading c; reads := S (reads c) |}).

(** A step that does not touch the clock. *)
Definition lift {A} (r : JS.result A) : IO A := fun c => (r, c).

Definition bindIO {A B} (m : IO A) (k : A -> IO B) : IO B :=
  fun c =>
    match m c with
    | (Ok a, c') => k a c'
    | (Throw e, c') => (Throw e, c')
    end.

Notation "x <- m ;; k" := (bindIO m (fun x => k))
  (at level 100, m at next level, right associativity, only parsing).

(** The value a computation returns (or the error it throws) on a clock. *)
Definition run {A} (m : IO A) (c : Clock) : JS.result A := fst (m c).

(* ================================================================== *)
(** * Types of [availability.ts] *)
(* ================================================================== *)

(** The string fields [startDateTime], [endDateTime], [startTime] and
    [endTime] are ISO date-times; each is kept as the instant it denotes. *)
Record AvailabilitySlot : Type := {
  _key : string;
  startDateTime : Date;
  endDateTime : Date
}.

Record BookingSlot : Type := {
  _id : string;
  startTime : Date;
  endTime : Date
}.

(** [{ start: Date; end: Date }]: a busy time, and structurally also the
    type of a returned slot. *)
Record BusyTime : Type := {
  start : Date;
  end_ : Date
}.

(* ================================================================== *)
(** * Core computation functions *)
(* ================================================================== *)

(** The optional parameters of the two exported functions are passed
    explicitly below: a call that omits them is the call with 30 minutes and
    with no busy time. *)

(** The callback that keeps the availability blocks of a day (the same text
    in [computeAvailableDates] and in [computeAvailableSlots]). *)
Definition availabilityForDate (availability : list AvailabilitySlot)
    (dayStart dayEnd : Date) : list AvailabilitySlot :=
  List.filter (fun slot =>
    let slotStart := parseISO (startDateTime slot) in
    let slotEnd := parseISO (endDateTime slot) in
    isWithinInterval slotStart dayStart dayEnd
    || isWithinInterval slotEnd dayStart dayEnd
    || ((slotStart <=? dayStart) && (slotEnd >=? dayEnd))) availability.

Definition generateSlotStarts (rangeStart rangeEnd : Date)
    (durationMinutes : Z) : JS.result (list Date) :=
  let slotCount :=
    JS.floor_div (rangeEnd - rangeStart) (durationMinutes * 60 * 1000) in
  JS.Array_from slotCount (fun i => addMinutes rangeStart (i * durationMinutes)).


(** The callback that keeps a candidate start when neither a booking nor a
    busy time blocks it (the same text in [computeAvailableSlots] and in
    [checkDayHasAvailableSlot]). *)
Definition noConflict (bookings : list BookingSlot) (busyTimes : list BusyTime)
    (slotDurationMinutes : Z) (currentStart : Date) : bool :=
  let currentEnd := addMinutes currentStart slotDurationMinutes in
  let hasBookingConflict :=
    existsb (fun booking =>
      let bookingStart := parseISO (startTime booking) in
      let bookingEnd := parseISO (endTime booking) in
      (currentStart <? bookingEnd) && (currentEnd >? bookingStart)) bookings in
  let hasBusyConflict :=
    existsb (fun busy =>
      (currentStart <? end_ busy) && (currentEnd >? start busy)) busyTimes in
  negb hasBookingConflict && negb hasBusyConflict.

Definition computeAvailableSlots (availability : list AvailabilitySlot)
    (bookings : list BookingSlot) (date : Date) (slotDurationMinutes : Z)
    (busyTimes : list BusyTime) : IO (list BusyTime) :=
  let dayStart := startOfDay date in
  let dayEnd := endOfDay date in
  now <- newDate ;;
  let availabilityForDate := availabilityForDate availability dayStart dayEnd in
  lift (JS.flatMap (fun availSlot =>
    let availStart := parseISO (startDateTime availSlot) in
    let availEnd := parseISO (endDateTime availSlot) in
    let slotStart := if availStart <? dayStart then dayStart else availStart in
    let slotEnd := if availEnd >? dayEnd then dayEnd else availEnd in
    JS.map (fun currentStart =>
              {| start := currentStart;
                 end_ := addMinutes currentStart slotDurationMinutes |})
      (JS.bind (generateSlotStarts slotStart slotEnd slotDurationMinutes)
         (fun slotStarts =>
            Ok (List.filter (noConflict bookings busyTimes slotDurationMinutes)
                  (List.filter (fun currentStart => currentStart >=? now)
                     slotStarts)))))
    availabilityForDate).

Definition checkDayHasAvailableSlot (availabilityForDate : list AvailabilitySlot)
    (bookings : list BookingSlot) (dayStart dayEnd : Date)
    (slotDurationMinutes : Z) (busyTimes : list BusyTime) : JS.result bool :=
  JS.some (fun availSlot =>
    let availStart := parseISO (startDateTime availSlot) in
    let availEnd := parseISO (endDateTime availSlot) in
    let slotStart := if availStart <? dayStart then dayStart else availStart in
    let slotEnd := if availEnd >? dayEnd then dayEnd else availEnd in
    JS.bind (generateSlotStarts slotStart slotEnd slotDurationMinutes)
      (fun potentialSlots =>
         Ok (existsb (noConflict bookings busyTimes slotDurationMinutes)
               potentialSlots)))
    availabilityForDate.

Definition computeAvailableDates (availability : list AvailabilitySlot)
    (bookings : list BookingSlot) (startDate endDate : Date)
    (slotDurationMinutes : Z) (busyTimes : list BusyTime) : IO (list string) :=
  now <- newDate ;;
  let today := startOfDay now in
  let dayCount :=
    JS.plus (JS.ceil_div (endDate - startDate) (1000 * 60 * 60 * 24)) 1 in
  lift (JS.map format_yyyy_MM_dd (JS.bind
    (JS.Array_from dayCount (fun i => addDays (startOfDay startDate) i))
    (fun days =>
       JS.filter (fun currentDate =>
         let dayStart := startOfDay currentDate in
         let dayEnd := endOfDay currentDate in
         let availabilityForDate :=
           availabilityForDate availability dayStart dayEnd in
         if (List.length availabilityForDate =? 0)%nat then Ok false
         else checkDayHasAvailableSlot availabilityForDate bookings
                dayStart dayEnd slotDurationMinutes busyTimes)
         (List.filter (fun currentDate =>
            (currentDate >=? today) && (currentDate <=? endDate)) days)))).

(* ================================================================== *)
(** * Views of the definitions used to state their properties *)
(* ================================================================== *)

(** A clock that answers [now] at every reading. *)
Definition clockAt (now : Date) : Clock := {| reading := fun _ => now; reads := 0 |}.

(** The availability block clamped to the day. *)
Definition clampStart (dayStart : Date) (availSlot : AvailabilitySlot) : Date :=
  let availStart := parseISO (startDateTime availSlot) in
  if availStart <? dayStart then dayStart else availStart.

Definition clampEnd (dayEnd : Date) (availSlot : AvailabilitySlot) : Date :=
  let availEnd := parseISO (endDateTime availSlot) in
  if availEnd >? dayEnd then dayEnd else availEnd.

(** The returned slot that starts at [currentStart]. *)
Definition slotAt (slotDurationMinutes : Z) (currentStart : Date) : BusyTime :=
  {| start := currentStart; end_ := addMinutes currentStart slotDurationMinutes |}.

(** What the [flatMap] callback of [computeAvailableSlots] returns for one
    availability block. *)
Definition windowSlots (now : Date) (bookings : list BookingSlot)
    (busyTimes : list BusyTime) (slotDurationMinutes : Z)
    (dayStart dayEnd : Date) (availSlot : AvailabilitySlot)
    : JS.result (list BusyTime) :=
  JS.map (slotAt slotDurationMinutes)
    (JS.bind (generateSlotStarts (clampStart dayStart availSlot)
                (clampEnd dayEnd availSlot) slotDurationMinutes)
       (fun slotStarts =>
          Ok (List.filter (noConflict bookings busyTimes slotDurationMinutes)
                (List.filter (fun currentStart => currentStart >=? now)
                   slotStarts)))).

(** The strict half-open overlap of [a, b) and [c, d). *)
Definition overlaps (a b c d : Date) : Prop := a < d /\ b > c.

(** The three ways an availability block meets a day. *)
Definition meetsDay (dayStart dayEnd : Date) (w : AvailabilitySlot) : Prop :=
  (dayStart <= startDateTime w <= dayEnd)
  \/ (dayStart <= endDateTime w <= dayEnd)
  \/ (startDateTime w <= dayStart /\ endDateTime w >= dayEnd).

(** The days [computeAvailableDates] enumerates from its range. *)
Definition daysOfRange (startDate endDate : Date) : JS.result (list Date) :=
  JS.Array_from
    (JS.plus (JS.ceil_div (endDate - startDate) (1000 * 60 * 60 * 24)) 1)
    (fun i => addDays (startOfDay startDate) i).

(** The second [filter] callback of [computeAvailableDates]. *)
Definition dayHasSlot (availability : list AvailabilitySlot)
    (bookings : list BookingSlot) (slotDurationMinutes : Z)
    (busyTimes : list BusyTime) (currentDate : Date) : JS.result bool :=
  let dayStart := startOfDay currentDate in
  let dayEnd := endOfDay currentDate in
  let availabilityForDate := availabilityForDate availability dayStart dayEnd in
  if (List.length availabilityForDate =? 0)%nat then Ok false
  else checkDayHasAvailableSlot availabilityForDate bookings
         dayStart dayEnd slotDurationMinutes busyTimes.

(** A range contains a day when the day is enumerated and not after the
    range's end. *)
Definition rangeContains (startDate endDate : Date) (day : Date) : Prop :=
  exists days, daysOfRange startDate endDate = Ok days
               /\ In day days /\ day <= endDate.

(** The days [computeAvailableDates] keeps, before they are formatted, when
    the clock answered [now]. *)
Definition availableDays (now : Date) (availability : list AvailabilitySlot)
    (bookings : list BookingSlot) (startDate endDate : Date)
    (slotDurationMinutes : Z) (busyTimes : list BusyTime)
    : JS.result (list Date) :=
  JS.bind (daysOfRange startDate endDate) (fun days =>
    JS.filter (dayHasSlot availability bookings slotDurationMinutes busyTimes)
      (List.filter (fun currentDate =>
         (currentDate >=? startOfDay now) && (currentDate <=? endDate)) days)).

(** An availability block whose start is not after its end. *)
Definition wellFormed (w : AvailabilitySlot) : Prop :=
  startDateTime w <= endDateTime w.

(** Returned slots are compared by their two instants. *)
Definition BusyTime_eq_dec (x y : BusyTime) : {x = y} + {x <> y}.
Proof. decide equality; apply Z.eq_dec. Defined.

(** Sequencing of two array results into their concatenation. *)
Definition concat2 {A} (r1 r2 : JS.result (list A)) : JS.result (list A) :=
  JS.bind r1 (fun xs => JS.bind r2 (fun ys => Ok (xs ++ ys))).

(** Concrete inputs for the scenarios: Monday 2024-06-10 and times on it. *)
Module Scenario.

Definition day : Date := 1717977600000.

Definition time (hours minutes : Z) : Date :=
  day + hours * 3600000 + minutes * 60000.

Definition block (from to : Date) : AvailabilitySlot :=
  {| _key := "block"; startDateTime := from; endDateTime := to |}.

Definition booking (from to : Date) : BookingSlot :=
  {| _id := "booking"; startTime := from; endTime := to |}.

Definition span (from to : Date) : BusyTime := {| start := from; end_ := to |}.

End Scenario.

(* ================================================================== *)
(** * Calendar block types and booking utilities *)
(* ================================================================== *)

(** The booking utilities of the second library file:
    [processBookingsWithStatuses] and the types it works on. *)
Module Blocks.

(** A property that may be missing ([undefined]), [null], or hold a value. *)
Inductive optional (A : Type) : Type :=
| Undefined
| Null
| Value (a : A).
Arguments Undefined {A}.
Arguments Null {A}.
Arguments Value {A} a.

(** Truthiness of a property that holds a string when it holds anything:
    the empty string is falsy. *)
Definition truthy (o : optional string) : bool :=
  match o with
  | Value s => negb (String.eqb s EmptyString)
  | _ => false
  end.

(** [o ?? fallback]. *)
Definition nullish {A} (o : optional A) (fallback : A) : A :=
  match o with
  | Value a => a
  | _ => fallback
  end.

(** [o ?? null]. *)
Definition orNull {A} (o : optional A) : option A :=
  match o with
  | Value a => Some a
  | _ => None
  end.

(** The argument of [getBookingAttendeeStatuses]: [googleEventId] is a
    string or [null] ([None]). *)
Module Request.
Record t : Type := {
  id : string;
  googleEventId : option string;
  guestEmail : string
}.
End Request.

(** Modelled from the spec: [BookingStatuses], declared in
    [@/lib/actions/calendar], which is not among the sources; the booking
    status collaborator maps a booking identifier to
    [{isCancelled: boolean, guestStatus}]. *)
Module Status.
Record t (AttendeeStatus : Type) : Type := {
  isCancelled : bool;
  guestStatus : option AttendeeStatus
}.
Arguments isCancelled {AttendeeStatus} _.
Arguments guestStatus {AttendeeStatus} _.
End Status.

Record BookingWithGoogleEvent : Type := {
  _id : string;
  googleEventId : optional string;
  guestEmail : optional string
}.

(** ** Booking utilities *)

Section WithAttendeeStatus.

(** [AttendeeStatus] is declared in [@/lib/google-calendar], which is not
    among the sources: any type. *)
Variable AttendeeStatus : Type.

(** [Record<string, BookingStatuses>], read by key. *)
Definition Statuses : Type := string -> option (Status.t AttendeeStatus).

(** [T extends BookingWithGoogleEvent]: any type whose values have the
    three properties. *)
Variable T : Type.
Variable properties : T -> BookingWithGoogleEvent.

(** [ProcessedBooking<T>]: the booking with [guestStatus] added. *)
Record ProcessedBooking : Type := {
  booking : T;
  guestStatus : option AttendeeStatus
}.

(** The server action [getBookingAttendeeStatuses], which is not among the
    sources, as the statuses it resolves to for the bookings it is sent. *)
Variable getBookingAttendeeStatuses : list Request.t -> Statuses.

(** The argument [processBookingsWithStatuses] sends to the server action. *)
Definition statusRequests (bookings : list T) : list Request.t :=
  List.map (fun b =>
    {| Request.id := _id (properties b);
       Request.googleEventId := orNull (googleEventId (properties b));
       Request.guestEmail := nullish (guestEmail (properties b)) EmptyString |})
    (List.filter (fun b => truthy (googleEventId (properties b))) bookings).

Definition processBookingsWithStatuses (bookings : list T)
    : Statuses * list ProcessedBooking :=
  let statuses := getBookingAttendeeStatuses (statusRequests bookings) in
  let activeBookings :=
    List.map (fun booking =>
      let bookingStatus := statuses (_id (properties booking)) in
      {| booking := booking;
         guestStatus :=
           match bookingStatus with
           | Some status => Status.guestStatus status
           | None => None
           end |})
      (List.filter (fun booking =>
         let bookingStatus := statuses (_id (properties booking)) in
         negb (truthy (googleEventId (properties booking)))
         || negb (match bookingStatus with
                  | Some status => Status.isCancelled status
                  | None => false
                  end)) bookings) in
  (statuses, activeBookings).

End WithAttendeeStatus.

Arguments booking {AttendeeStatus T} _.
Arguments guestStatus {AttendeeStatus T} _.

End Blocks.

(* ================================================================== *)
(** * Facts about the JavaScript fragment *)
(* ================================================================== *)

Lemma indices_In (n i : Z) : In i (JS.indices n) <-> 0 <= i < n.
Proof.
  unfold JS.indices. rewrite in_map_iff. split.
  - intros [k [<- Hk]]. apply in_seq in Hk. lia.
  - intros Hi. exists (Z.to_nat i). split; [lia|]. apply in_seq. lia.
Qed.

Lemma indices_length (n : Z) : List.length (JS.indices n) = Z.to_nat n.
Proof. unfold JS.indices. now rewrite length_map, length_seq. Qed.

Lemma indices_nonpos (n : Z) : n <= 0 -> JS.indices n = [].
Proof.
  intros Hn. unfold JS.indices.
  replace (Z.to_nat n) with 0%nat by lia. reflexivity.
Qed.

Lemma indices_nth (n : Z) (i : nat) (d : Z) :
  (i < Z.to_nat n)%nat -> nth i (JS.indices n) d = Z.of_nat i.
Proof.
  intros Hi. unfold JS.indices.
  rewrite nth_indep with (d' := Z.of_nat 0) by (now rewrite length_map, length_seq).
  rewrite map_nth, seq_nth by assumption. reflexivity.
Qed.

Lemma floor_div_nonzero (x y : Z) : y <> 0 -> JS.floor_div x y = JS.Finite (x / y).
Proof.
  intros Hy. unfold JS.floor_div, JS.quotient.
  destruct (y =? 0) eqn:E; [apply Z.eqb_eq in E; contradiction|reflexivity].
Qed.

(** Floor division by a negative number, through its positive opposite. *)
Lemma div_neg_divisor (a b : Z) : b < 0 -> a / b = (- a) / (- b).
Proof. intros Hb. rewrite Z.div_opp_opp; lia. Qed.

Section Arrays.

Context {A B : Type}.

Lemma map_nth_in (f : A -> B) (l : list A) (d : B) (d' : A) (i : nat) :
  (i < List.length l)%nat -> nth i (List.map f l) d = f (nth i l d').
Proof.
  intros Hi. rewrite nth_indep with (d' := f d') by (now rewrite length_map).
  apply map_nth.
Qed.

(** [Array.from] with a finite length within the array limit builds the
    array; a length that is not positive builds the empty one. *)
Lemma Array_from_finite (n : Z) (f : Z -> A) :
  n <= JS.max_array_length ->
  JS.Array_from (JS.Finite n) f = Ok (List.map f (JS.indices n)).
Proof.
  intros Hn. unfold JS.Array_from, JS.ToLength, JS.max_array_length in *.
  destruct (n <=? 0) eqn:H0.
  - apply Z.leb_le in H0. simpl. now rewrite (indices_nonpos n).
  - apply Z.leb_gt in H0.
    replace (Z.min n (2 ^ 53 - 1)) with n by lia.
    destruct (2 ^ 32 - 1 <? n) eqn:Hlt; [apply Z.ltb_lt in Hlt; lia|reflexivity].
Qed.

Lemma Array_from_too_long (n : Z) (f : Z -> A) :
  JS.max_array_length < n ->
  JS.Array_from (JS.Finite n) f = Throw RangeError.
Proof.
  intros Hn. unfold JS.Array_from, JS.ToLength, JS.max_array_length in *.
  destruct (n <=? 0) eqn:H0; [apply Z.leb_le in H0; lia|].
  destruct (2 ^ 32 - 1 <? Z.min n (2 ^ 53 - 1)) eqn:Hlt; [reflexivity|].
  apply Z.ltb_ge in Hlt. lia.
Qed.

Lemma Array_from_In (n : JS.number) (f : Z -> A) (xs : list A) (x : A) :
  JS.Array_from n f = Ok xs ->
  (In x xs <-> exists i, 0 <= i < JS.ToLength n /\ x = f i).
Proof.
  unfold JS.Array_from.
  destruct (JS.max_array_length <? JS.ToLength n); [discriminate|].
  intros H. injection H as <-. rewrite in_map_iff. split.
  - intros [i [<- Hi]]. apply indices_In in Hi. eauto.
  - intros [i [Hi ->]]. exists i. split; [reflexivity|now apply indices_In].
Qed.

Lemma flatMap_app (f : A -> JS.result (list B)) (xs ys : list A) :
  JS.flatMap f (xs ++ ys) = concat2 (JS.flatMap f xs) (JS.flatMap f ys).
Proof.
  unfold concat2. induction xs as [|x xs IH]; simpl.
  - destruct (JS.flatMap f ys); reflexivity.
  - destruct (f x) as [zs|e]; simpl; [|reflexivity].
    rewrite IH. destruct (JS.flatMap f xs) as [us|e]; simpl; [|reflexivity].
    destruct (JS.flatMap f ys) as [vs|e]; simpl; [|reflexivity].
    now rewrite app_assoc.
Qed.

Lemma flatMap_In (f : A -> JS.result (list B)) (xs : list A)
    (ys : list B) (y : B) :
  JS.flatMap f xs = Ok ys ->
  (In y ys <-> exists x zs, In x xs /\ f x = Ok zs /\ In y zs).
Proof.
  revert ys. induction xs as [|x xs IH]; simpl; intros ys Hys.
  - injection Hys as <-. split; [intros []|intros [x [zs [[] _]]]].
  - destruct (f x) as [zs|e] eqn:Hx; simpl in Hys; [|discriminate].
    destruct (JS.flatMap f xs) as [us|e] eqn:Hxs; simpl in Hys; [|discriminate].
    injection Hys as <-. rewrite in_app_iff, (IH us eq_refl). split.
    + intros [Hy|[x' [zs' [Hin [Hf Hy]]]]].
      * exists x, zs. auto.
      * exists x', zs'. auto.
    + intros [x' [zs' [[->|Hin] [Hf Hy]]]].
      * left. congruence.
      * right. exists x', zs'. auto.
Qed.

(** A [flatMap] whose callback returns on every element returns. *)
Lemma flatMap_returns (f : A -> JS.result (list B)) (xs : list A) :
  (forall x, In x xs -> exists zs, f x = Ok zs) ->
  exists ys, JS.flatMap f xs = Ok ys.
Proof.
  induction xs as [|x xs IH]; simpl; intros Hf.
  - now exists [].
  - destruct (Hf x (or_introl eq_refl)) as [zs ->].
    destruct IH as [ys ->]; [intros x' Hx'; apply Hf; now right|].
    simpl. now exists (zs ++ ys).
Qed.


Lemma throwing_filter_In (f : A -> JS.result bool) (xs ys : list A) (y : A) :
  JS.filter f xs = Ok ys ->
  (In y ys <-> In y xs /\ f y = Ok true).
Proof.
  revert ys. induction xs as [|x xs IH]; simpl; intros ys Hys.
  - injection Hys as <-. simpl. tauto.
  - destruct (f x) as [keep|e] eqn:Hx; simpl in Hys; [|discriminate].
    destruct (JS.filter f xs) as [kept|e] eqn:Hxs; simpl in Hys; [|discriminate].
    injection Hys as <-. specialize (IH kept eq_refl).
    destruct keep; simpl; rewrite ?IH; split.
    + intros [->|[Hin Hf]]; auto.
    + intros [[->|Hin] Hf]; auto.
    + intros [Hin Hf]; auto.
    + intros [[->|Hin] Hf]; [congruence|auto].
Qed.

Lemma throwing_filter_returns (f : A -> JS.result bool) (xs : list A) :
  (forall x, In x xs -> exists b, f x = Ok b) ->
  exists ys, JS.filter f xs = Ok ys.
Proof.
  induction xs as [|x xs IH]; simpl; intros Hf.
  - now exists [].
  - destruct (Hf x (or_introl eq_refl)) as [b ->].
    destruct IH as [ys ->]; [intros x' Hx'; apply Hf; now right|].
    simpl. eexists. reflexivity.
Qed.


(** A [some] that answers [true] found an element the callback accepts. *)
Lemma some_true (f : A -> JS.result bool) (xs : list A) :
  JS.some f xs = Ok true -> exists x, In x xs /\ f x = Ok true.
Proof.
  induction xs as [|x xs IH]; simpl; [discriminate|].
  destruct (f x) as [[|]|e] eqn:Hx; intros H.
  - exists x. auto.
  - destruct (IH H) as [x' [Hin Hf]]. exists x'. auto.
  - discriminate.
Qed.


End Arrays.

(* ================================================================== *)
(** * Facts about days *)
(* ================================================================== *)

Example format_epoch : format_yyyy_MM_dd 0 = "1970-01-01"%string.
Proof. reflexivity. Qed.

Example format_before_epoch : format_yyyy_MM_dd (-1) = "1969-12-31"%string.
Proof. vm_compute. reflexivity. Qed.

Example format_leap_day : format_yyyy_MM_dd 1709211599000 = "2024-02-29"%string.
Proof. vm_compute. reflexivity. Qed.

Example format_new_year : format_yyyy_MM_dd 1735689600000 = "2025-01-01"%string.
Proof. vm_compute. reflexivity. Qed.

Example format_century : format_yyyy_MM_dd 4107542400000 = "2100-03-01"%string.
Proof. vm_compute. reflexivity. Qed.

Lemma startOfDay_le (d : Date) : startOfDay d <= d < startOfDay d + msPerDay.
Proof.
  unfold startOfDay, msPerDay.
  pose proof (Z.mod_pos_bound d 86400000 ltac:(lia)). lia.
Qed.


Lemma startOfDay_addDays (d : Date) (i : Z) :
  startOfDay (addDays (startOfDay d) i) = addDays (startOfDay d) i.
Proof.
  unfold addDays, startOfDay, msPerDay.
  rewrite Z_mod_plus_full, Zminus_mod_idemp_r, Z.sub_diag, Zmod_0_l. lia.
Qed.

Lemma startOfDay_next (d : Date) :
  startOfDay d = d -> startOfDay (d + msPerDay) = d + msPerDay.
Proof.
  intros H. rewrite <- H.
  replace (startOfDay d + msPerDay) with (addDays (startOfDay d) 1)
    by (unfold addDays; lia).
  apply startOfDay_addDays.
Qed.


Lemma day_length (date : Date) : endOfDay date - startOfDay date = msPerDay - 1.
Proof. unfold endOfDay. lia. Qed.

(** The interval handed to [isWithinInterval] is never reversed. *)
Lemma startOfDay_le_endOfDay (date : Date) : startOfDay date <= endOfDay date.
Proof. pose proof (day_length date). unfold msPerDay in *. lia. Qed.

(* ================================================================== *)
(** * The slot generator *)
(* ================================================================== *)

(** With a duration that is not zero the generator emits the lattice
    [rangeStart + i * duration], one instant per index below the floored
    quotient, unless that quotient exceeds the array limit. *)
Lemma generateSlotStarts_nonzero (rangeStart rangeEnd : Date) (durationMinutes : Z) :
  durationMinutes <> 0 ->
  (rangeEnd - rangeStart) / (durationMinutes * 60000) <= JS.max_array_length ->
  generateSlotStarts rangeStart rangeEnd durationMinutes =
  Ok (List.map (fun i => rangeStart + i * (durationMinutes * 60000))
        (JS.indices ((rangeEnd - rangeStart) / (durationMinutes * 60000)))).
Proof.
  intros Hd Hn. unfold generateSlotStarts.
  replace (durationMinutes * 60 * 1000) with (durationMinutes * 60000) by lia.
  rewrite floor_div_nonzero by lia.
  rewrite Array_from_finite by assumption.
  f_equal. apply map_ext. intros i. unfold addMinutes, msPerMinute. lia.
Qed.

Lemma generateSlotStarts_too_many (rangeStart rangeEnd : Date) (durationMinutes : Z) :
  durationMinutes <> 0 ->
  JS.max_array_length < (rangeEnd - rangeStart) / (durationMinutes * 60000) ->
  generateSlotStarts rangeStart rangeEnd durationMinutes = Throw RangeError.
Proof.
  intros Hd Hn. unfold generateSlotStarts.
  replace (durationMinutes * 60 * 1000) with (durationMinutes * 60000) by lia.
  rewrite floor_div_nonzero by lia. now apply Array_from_too_long.
Qed.

Lemma generateSlotStarts_In (rangeStart rangeEnd : Date) (durationMinutes : Z)
    (starts : list Date) (s : Date) :
  durationMinutes <> 0 ->
  generateSlotStarts rangeStart rangeEnd durationMinutes = Ok starts ->
  In s starts ->
  exists i, 0 <= i < (rangeEnd - rangeStart) / (durationMinutes * 60000)
            /\ s = rangeStart + i * (durationMinutes * 60000).
Proof.
  intros Hd Hgen Hin.
  destruct (Z_le_gt_dec ((rangeEnd - rangeStart) / (durationMinutes * 60000))
              JS.max_array_length) as [Hle|Hgt].
  - rewrite generateSlotStarts_nonzero in Hgen by assumption.
    injection Hgen as <-. apply in_map_iff in Hin.
    destruct Hin as [i [<- Hi]]. apply indices_In in Hi. now exists i.
  - rewrite generateSlotStarts_too_many in Hgen by lia. discriminate.
Qed.

Lemma generateSlotStarts_zero (rangeStart rangeEnd : Date) :
  generateSlotStarts rangeStart rangeEnd 0 =
  if rangeStart <? rangeEnd then Throw RangeError else Ok [].
Proof.
  unfold generateSlotStarts, JS.floor_div, JS.quotient. simpl (0 * 60 * 1000 =? 0).
  cbv iota.
  destruct (rangeStart <? rangeEnd) eqn:E.
  - apply Z.ltb_lt in E.
    destruct (0 <? rangeEnd - rangeStart) eqn:E1; [reflexivity|].
    apply Z.ltb_ge in E1. lia.
  - apply Z.ltb_ge in E.
    destruct (0 <? rangeEnd - rangeStart) eqn:E1; [apply Z.ltb_lt in E1; lia|].
    destruct (rangeEnd - rangeStart <? 0); reflexivity.
Qed.


(** A negative duration over a range that is not reversed asks for no slot. *)
Lemma generateSlotStarts_negative (rangeStart rangeEnd : Date) (durationMinutes : Z) :
  durationMinutes < 0 -> rangeStart <= rangeEnd ->
  generateSlotStarts rangeStart rangeEnd durationMinutes = Ok [].
Proof.
  intros Hneg Hle.
  assert (Hq : (rangeEnd - rangeStart) / (durationMinutes * 60000) <= 0)
    by (rewrite div_neg_divisor by lia; apply Z.div_le_upper_bound; lia).
  rewrite generateSlotStarts_nonzero by (unfold JS.max_array_length; lia).
  now rewrite indices_nonpos.
Qed.

(** Candidates of a positive duration start at or after the range's start
    and end at or before its end. *)
Lemma generateSlotStarts_positive_bounds (rangeStart rangeEnd : Date)
    (durationMinutes : Z) (starts : list Date) (a : Date) :
  0 < durationMinutes ->
  generateSlotStarts rangeStart rangeEnd durationMinutes = Ok starts ->
  In a starts ->
  rangeStart <= a /\ addMinutes a durationMinutes <= rangeEnd.
Proof.
  intros Hd Hgen Ha.
  assert (Hnz : durationMinutes <> 0) by lia.
  destruct (generateSlotStarts_In _ _ _ _ _ Hnz Hgen Ha) as [i [Hi ->]].
  unfold addMinutes, msPerMinute.
  pose proof (Z.mul_div_le (rangeEnd - rangeStart) (durationMinutes * 60000)
                ltac:(lia)).
  nia.
Qed.

(* ================================================================== *)
(** * The conflict filter and the selection of a day's blocks *)
(* ================================================================== *)

Section ConflictFilter.

Variable bookings : list BookingSlot.
Variable busyTimes : list BusyTime.
Variable slotDurationMinutes : Z.

Lemma noConflict_false (a : Date) :
  noConflict bookings busyTimes slotDurationMinutes a = false <->
  (exists booking, In booking bookings
     /\ overlaps a (addMinutes a slotDurationMinutes)
          (startTime booking) (endTime booking))
  \/ (exists busy, In busy busyTimes
     /\ overlaps a (addMinutes a slotDurationMinutes) (start busy) (end_ busy)).
Proof.
  unfold noConflict, overlaps, parseISO.
  rewrite andb_false_iff, !negb_false_iff, !existsb_exists.
  split; (intros [[b [Hin H]]|[b [Hin H]]]; [left|right]; exists b; split; auto).
  - apply andb_true_iff in H. destruct H as [H1 H2].
    apply Z.ltb_lt in H1. apply Z.gtb_lt in H2. lia.
  - apply andb_true_iff in H. destruct H as [H1 H2].
    apply Z.ltb_lt in H1. apply Z.gtb_lt in H2. lia.
  - apply andb_true_iff. split; [apply Z.ltb_lt|apply Z.gtb_lt]; lia.
  - apply andb_true_iff. split; [apply Z.ltb_lt|apply Z.gtb_lt]; lia.
Qed.

Lemma noConflict_true (a : Date) :
  noConflict bookings busyTimes slotDurationMinutes a = true <->
  (forall booking, In booking bookings ->
     ~ overlaps a (addMinutes a slotDurationMinutes)
         (startTime booking) (endTime booking))
  /\ (forall busy, In busy busyTimes ->
     ~ overlaps a (addMinutes a slotDurationMinutes) (start busy) (end_ busy)).
Proof.
  pose proof (noConflict_false a) as Hf.
  destruct (noConflict bookings busyTimes slotDurationMinutes a); split.
  - intros _. split; intros b Hin Hov.
    + assert (true = false) by (apply Hf; left; eauto). discriminate.
    + assert (true = false) by (apply Hf; right; eauto). discriminate.
  - reflexivity.
  - discriminate.
  - intros [H1 H2]. destruct (proj1 Hf eq_refl) as [[b [Hin Hov]]|[b [Hin Hov]]].
    + now destruct (H1 b Hin).
    + now destruct (H2 b Hin).
Qed.

End ConflictFilter.

Lemma availabilityForDate_In (availability : list AvailabilitySlot)
    (dayStart dayEnd : Date) (w : AvailabilitySlot) :
  In w (availabilityForDate availability dayStart dayEnd) <->
  In w availability /\ meetsDay dayStart dayEnd w.
Proof.
  unfold availabilityForDate, meetsDay, isWithinInterval, parseISO.
  rewrite filter_In.
  rewrite !orb_true_iff, !andb_true_iff, !Z.leb_le, Z.geb_le. intuition lia.
Qed.

Lemma availabilityForDate_app (xs ys : list AvailabilitySlot)
    (dayStart dayEnd : Date) :
  availabilityForDate (xs ++ ys) dayStart dayEnd =
  availabilityForDate xs dayStart dayEnd ++ availabilityForDate ys dayStart dayEnd.
Proof. unfold availabilityForDate. apply filter_app. Qed.

Lemma clampStart_max (dayStart : Date) (w : AvailabilitySlot) :
  clampStart dayStart w = Z.max (startDateTime w) dayStart.
Proof.
  unfold clampStart, parseISO. destruct (startDateTime w <? dayStart) eqn:E.
  - apply Z.ltb_lt in E. lia.
  - apply Z.ltb_ge in E. lia.
Qed.

Lemma clampEnd_min (dayEnd : Date) (w : AvailabilitySlot) :
  clampEnd dayEnd w = Z.min (endDateTime w) dayEnd.
Proof.
  unfold clampEnd, parseISO. destruct (endDateTime w >? dayEnd) eqn:E.
  - apply Z.gtb_lt in E. lia.
  - rewrite Z.gtb_ltb in E. apply Z.ltb_ge in E. lia.
Qed.

Create Rewrite HintDb clamp.
#[local] Hint Rewrite clampStart_max clampEnd_min : clamp.

(** Clamping a block to a day leaves a range no longer than the day. *)
Lemma clamped_range_within_day (dayStart dayEnd : Date) (w : AvailabilitySlot) :
  dayStart <= dayEnd ->
  clampEnd dayEnd w - clampStart dayStart w <= dayEnd - dayStart.
Proof. autorewrite with clamp. lia. Qed.

(** A block that meets the day and is not reversed has a clamped range that
    is not reversed either. *)
Lemma clamp_ordered (dayStart dayEnd : Date) (w : AvailabilitySlot) :
  dayStart <= dayEnd -> meetsDay dayStart dayEnd w -> wellFormed w ->
  clampStart dayStart w <= clampEnd dayEnd w.
Proof.
  autorewrite with clamp. unfold meetsDay, wellFormed. lia.
Qed.

(** Unless the duration is negative and the block is reversed, every
    candidate of a block lies inside the clamped block. *)
Lemma candidate_within_clamp (dayStart dayEnd : Date) (w : AvailabilitySlot)
    (durationMinutes : Z) (starts : list Date) (a : Date) :
  dayStart <= dayEnd ->
  meetsDay dayStart dayEnd w ->
  0 <= durationMinutes \/ wellFormed w ->
  generateSlotStarts (clampStart dayStart w) (clampEnd dayEnd w)
    durationMinutes = Ok starts ->
  In a starts ->
  clampStart dayStart w <= a /\ addMinutes a durationMinutes <= clampEnd dayEnd w.
Proof.
  intros Hday Hmeet Hpre Hgen Ha.
  destruct (Z.lt_trichotomy durationMinutes 0) as [Hneg|[Hzero|Hpos]].
  - exfalso. destruct Hpre as [Hpre|Hwf]; [lia|].
    rewrite generateSlotStarts_negative in Hgen
      by (try apply clamp_ordered; assumption).
    injection Hgen as <-. destruct Ha.
  - exfalso. subst durationMinutes. rewrite generateSlotStarts_zero in Hgen.
    destruct (clampStart dayStart w <? clampEnd dayEnd w); [discriminate|].
    injection Hgen as <-. destruct Ha.
  - now apply (generateSlotStarts_positive_bounds _ _ _ starts).
Qed.

(* ================================================================== *)
(** * The aggregators, unfolded *)
(* ================================================================== *)

Section Aggregators.

Variable availability : list AvailabilitySlot.
Variable bookings : list BookingSlot.
Variable slotDurationMinutes : Z.
Variable busyTimes : list BusyTime.
Variable c : Clock.

Lemma run_computeAvailableSlots (date : Date) :
  run (computeAvailableSlots availability bookings date slotDurationMinutes
         busyTimes) c =
  JS.flatMap (windowSlots (currentTime c) bookings busyTimes slotDurationMinutes
                (startOfDay date) (endOfDay date))
    (availabilityForDate availability (startOfDay date) (endOfDay date)).
Proof. reflexivity. Qed.

Lemma run_computeAvailableDates (startDate endDate : Date) :
  run (computeAvailableDates availability bookings startDate endDate
         slotDurationMinutes busyTimes) c =
  JS.map format_yyyy_MM_dd
    (availableDays (currentTime c) availability bookings startDate endDate
       slotDurationMinutes busyTimes).
Proof. reflexivity. Qed.

(** Both aggregators read the clock exactly once. *)
Lemma computeAvailableSlots_reads (date : Date) :
  reads (snd (computeAvailableSlots availability bookings date
                slotDurationMinutes busyTimes c)) = S (reads c).
Proof. reflexivity. Qed.

Lemma computeAvailableDates_reads (startDate endDate : Date) :
  reads (snd (computeAvailableDates availability bookings startDate endDate
                slotDurationMinutes busyTimes c)) = S (reads c).
Proof. reflexivity. Qed.

End Aggregators.

(* ================================================================== *)
(** * Where a returned slot, and a kept day, come from *)
(* ================================================================== *)

Section Origins.

Variable availability : list AvailabilitySlot.
Variable bookings : list BookingSlot.
Variable slotDurationMinutes : Z.
Variable busyTimes : list BusyTime.

(** A returned slot of one availability block is a generated candidate that
    is not before [now] and has no conflict. *)
Lemma windowSlots_In (now dayStart dayEnd : Date) (w : AvailabilitySlot)
    (slots : list BusyTime) (s : BusyTime) :
  windowSlots now bookings busyTimes slotDurationMinutes dayStart dayEnd w
    = Ok slots ->
  (In s slots <->
   exists starts a,
     generateSlotStarts (clampStart dayStart w) (clampEnd dayEnd w)
       slotDurationMinutes = Ok starts
     /\ In a starts /\ now <= a
     /\ noConflict bookings busyTimes slotDurationMinutes a = true
     /\ s = slotAt slotDurationMinutes a).
Proof.
  unfold windowSlots, JS.map. intros H.
  destruct (generateSlotStarts (clampStart dayStart w) (clampEnd dayEnd w)
              slotDurationMinutes) as [starts|e]; simpl in H; [|discriminate].
  injection H as <-. rewrite in_map_iff. split.
  - intros [a [<- Ha]]. apply List.filter_In in Ha. destruct Ha as [Ha Hfree].
    apply List.filter_In in Ha. destruct Ha as [Ha Hnow].
    exists starts, a. repeat split; auto. apply Z.geb_le in Hnow. lia.
  - intros [starts' [a [Heq [Ha [Hnow [Hfree ->]]]]]]. injection Heq as <-.
    exists a. split; [reflexivity|].
    apply List.filter_In. split; [|assumption].
    apply List.filter_In. split; [assumption|]. apply Z.geb_le. lia.
Qed.

(** The returned slots of [computeAvailableSlots], characterised. *)
Lemma computeAvailableSlots_In (date : Date) (c : Clock)
    (slots : list BusyTime) (s : BusyTime) :
  run (computeAvailableSlots availability bookings date slotDurationMinutes
         busyTimes) c = Ok slots ->
  (In s slots <->
   exists w starts a,
     In w availability /\ meetsDay (startOfDay date) (endOfDay date) w
     /\ generateSlotStarts (clampStart (startOfDay date) w)
          (clampEnd (endOfDay date) w) slotDurationMinutes = Ok starts
     /\ In a starts /\ currentTime c <= a
     /\ noConflict bookings busyTimes slotDurationMinutes a = true
     /\ s = slotAt slotDurationMinutes a).
Proof.
  rewrite run_computeAvailableSlots. intros H.
  rewrite (flatMap_In _ _ _ s H). split.
  - intros [w [zs [Hw [Hzs Hs]]]]. apply availabilityForDate_In in Hw.
    destruct Hw as [Hw Hmeet].
    apply (windowSlots_In _ _ _ _ _ s Hzs) in Hs.
    destruct Hs as [starts [a Hs]]. exists w, starts, a. tauto.
  - intros [w [starts [a [Hw [Hmeet Hrest]]]]].
    assert (Hin : In w (availabilityForDate availability (startOfDay date)
                          (endOfDay date)))
      by (apply availabilityForDate_In; auto).
    destruct (windowSlots (currentTime c) bookings busyTimes slotDurationMinutes
                (startOfDay date) (endOfDay date) w) as [zs|e] eqn:Hzs.
    + exists w, zs. repeat split; auto.
      apply (windowSlots_In _ _ _ _ _ s Hzs). exists starts, a. exact Hrest.
    + exfalso. unfold windowSlots in Hzs.
      destruct Hrest as [Hgen _]. rewrite Hgen in Hzs. discriminate.
Qed.

(** A day check that answers [true] found a candidate without conflict. *)
Lemma checkDayHasAvailableSlot_true (ws : list AvailabilitySlot)
    (dayStart dayEnd : Date) :
  checkDayHasAvailableSlot ws bookings dayStart dayEnd
    slotDurationMinutes busyTimes = Ok true ->
  exists w starts a,
    In w ws
    /\ generateSlotStarts (clampStart dayStart w) (clampEnd dayEnd w)
         slotDurationMinutes = Ok starts
    /\ In a starts
    /\ noConflict bookings busyTimes slotDurationMinutes a = true.
Proof.
  unfold checkDayHasAvailableSlot. intros H.
  apply some_true in H. destruct H as [w [Hw H]].
  fold (clampStart dayStart w) in H. fold (clampEnd dayEnd w) in H.
  destruct (generateSlotStarts (clampStart dayStart w) (clampEnd dayEnd w)
              slotDurationMinutes) as [starts|e] eqn:Hgen; simpl in H;
    [|discriminate].
  injection H as H. apply existsb_exists in H. destruct H as [a [Ha Hfree]].
  exists w, starts, a. auto.
Qed.

(** The days [computeAvailableDates] keeps, characterised. *)
Lemma availableDays_In (now startDate endDate : Date)
    (kept : list Date) (day : Date) :
  availableDays now availability bookings startDate endDate
    slotDurationMinutes busyTimes = Ok kept ->
  (In day kept <->
   rangeContains startDate endDate day
   /\ startOfDay now <= day
   /\ dayHasSlot availability bookings slotDurationMinutes busyTimes day
      = Ok true).
Proof.
  unfold availableDays, rangeContains.
  destruct (daysOfRange startDate endDate) as [days|e]; simpl; [|discriminate].
  intros H. rewrite (throwing_filter_In _ _ _ day H), List.filter_In.
  rewrite andb_true_iff, Z.geb_le, Z.leb_le. split.
  - intros [[Hin [Htoday Hend]] Hslot]. repeat split; auto. exists days. auto.
  - intros [[days' [Heq [Hin Hend]]] [Htoday Hslot]]. injection Heq as <-. auto.
Qed.

End Origins.

(** Every enumerated day is the start of a day. *)
Lemma daysOfRange_startOfDay (startDate endDate : Date) (days : list Date)
    (day : Date) :
  daysOfRange startDate endDate = Ok days -> In day days ->
  startOfDay day = day.
Proof.
  unfold daysOfRange. intros H Hin.
  apply (Array_from_In _ _ _ day H) in Hin. destruct Hin as [i [_ ->]].
  apply startOfDay_addDays.
Qed.

(** Replaces the membership [Hs] of a slot in the result [Hrun] of
    [computeAvailableSlots] by the block [w], the candidate [a] and the
    facts about them that put the slot there. *)
Ltac slot_origin Hrun Hs w starts a :=
  apply (computeAvailableSlots_In _ _ _ _ _ _ _ _ Hrun) in Hs;
  let Hw := fresh "Hblock" in
  let Hmeet := fresh "Hmeet" in
  let Hgen := fresh "Hgen" in
  let Ha := fresh "Hcand" in
  let Hnow := fresh "Hnow" in
  let Hfree := fresh "Hfree" in
  destruct Hs as [w [starts [a [Hw [Hmeet [Hgen [Ha [Hnow [Hfree ->]]]]]]]]].

(* ================================================================== *)
(** * Positive durations: the aggregators return *)
(* ================================================================== *)

Section PositiveDuration.

Variable availability : list AvailabilitySlot.
Variable bookings : list BookingSlot.
Variable slotDurationMinutes : Z.
Variable busyTimes : list BusyTime.
Hypothesis positive : 0 < slotDurationMinutes.

(** Inside a day a positive duration never asks for more than 1439 slots,
    so the generator returns. *)
Lemma generateSlotStarts_clamped (date : Date) (w : AvailabilitySlot) :
  exists starts,
    generateSlotStarts (clampStart (startOfDay date) w)
      (clampEnd (endOfDay date) w) slotDurationMinutes = Ok starts.
Proof.
  eexists. apply generateSlotStarts_nonzero; [lia|].
  autorewrite with clamp.
  pose proof (day_length date) as Hday. unfold msPerDay in Hday.
  unfold JS.max_array_length.
  apply Z.div_le_upper_bound; [lia|]. change (2 ^ 32 - 1) with 4294967295. lia.
Qed.

Lemma windowSlots_returns (now date : Date) (w : AvailabilitySlot) :
  exists slots,
    windowSlots now bookings busyTimes slotDurationMinutes
      (startOfDay date) (endOfDay date) w = Ok slots.
Proof.
  unfold windowSlots.
  destruct (generateSlotStarts_clamped date w) as [starts ->].
  simpl. eexists. reflexivity.
Qed.

(** [computeAvailableSlots] returns for every positive duration. *)
Lemma computeAvailableSlots_returns (date : Date) (c : Clock) :
  exists slots,
    run (computeAvailableSlots availability bookings date slotDurationMinutes
           busyTimes) c = Ok slots.
Proof.
  rewrite run_computeAvailableSlots. apply flatMap_returns.
  intros w _. apply windowSlots_returns.
Qed.

Lemma checkDayHasAvailableSlot_returns (ws : list AvailabilitySlot) (date : Date) :
  exists b,
    checkDayHasAvailableSlot ws bookings (startOfDay date) (endOfDay date)
      slotDurationMinutes busyTimes = Ok b.
Proof.
  unfold checkDayHasAvailableSlot.
  induction ws as [|w ws IH]; simpl; [now exists false|].
  fold (clampStart (startOfDay date) w). fold (clampEnd (endOfDay date) w).
  destruct (generateSlotStarts_clamped date w) as [starts ->].
  simpl.
  destruct (existsb (noConflict bookings busyTimes slotDurationMinutes) starts);
    [now exists true|exact IH].
Qed.

(** The day check is then the plain existence test over the candidates of
    the day's blocks: short-circuiting does not change its answer. *)
Lemma checkDayHasAvailableSlot_positive (ws : list AvailabilitySlot) (date : Date) :
  checkDayHasAvailableSlot ws bookings (startOfDay date) (endOfDay date)
    slotDurationMinutes busyTimes = Ok true
  <-> exists w starts a,
        In w ws
        /\ generateSlotStarts (clampStart (startOfDay date) w)
             (clampEnd (endOfDay date) w) slotDurationMinutes = Ok starts
        /\ In a starts
        /\ noConflict bookings busyTimes slotDurationMinutes a = true.
Proof.
  split; [apply checkDayHasAvailableSlot_true|].
  unfold checkDayHasAvailableSlot.
  intros [w [starts [a [Hw [Hgen [Ha Hfree]]]]]].
  induction ws as [|w' ws' IH]; [destruct Hw|]. simpl.
  fold (clampStart (startOfDay date) w'). fold (clampEnd (endOfDay date) w').
  destruct (generateSlotStarts_clamped date w') as [starts' Hgen'].
  rewrite Hgen'. simpl.
  destruct (existsb (noConflict bookings busyTimes slotDurationMinutes) starts')
    eqn:Hex; [reflexivity|].
  destruct Hw as [->|Hw]; [|now apply IH].
  rewrite Hgen in Hgen'. injection Hgen' as <-.
  assert (existsb (noConflict bookings busyTimes slotDurationMinutes) starts = true)
    by (apply existsb_exists; eauto).
  congruence.
Qed.

Lemma dayHasSlot_returns (d : Date) :
  exists b, dayHasSlot availability bookings slotDurationMinutes busyTimes d = Ok b.
Proof.
  unfold dayHasSlot.
  destruct (Datatypes.length
              (availabilityForDate availability (startOfDay d) (endOfDay d))
            =? 0)%nat; [now exists false|].
  apply checkDayHasAvailableSlot_returns.
Qed.

(** The day filter accepts a day exactly when one of its blocks has a
    candidate without conflict. *)
Lemma dayHasSlot_true (d : Date) :
  dayHasSlot availability bookings slotDurationMinutes busyTimes d = Ok true
  <-> exists w starts a,
        In w availability /\ meetsDay (startOfDay d) (endOfDay d) w
        /\ generateSlotStarts (clampStart (startOfDay d) w)
             (clampEnd (endOfDay d) w) slotDurationMinutes = Ok starts
        /\ In a starts
        /\ noConflict bookings busyTimes slotDurationMinutes a = true.
Proof.
  unfold dayHasSlot.
  set (ws := availabilityForDate availability (startOfDay d) (endOfDay d)).
  split.
  - destruct (Datatypes.length ws =? 0)%nat; [discriminate|].
    intros H. apply checkDayHasAvailableSlot_true in H.
    destruct H as [w [starts [a [Hw H]]]].
    apply availabilityForDate_In in Hw. exists w, starts, a. tauto.
  - intros [w [starts [a [Hw [Hmeet H]]]]].
    assert (Hin : In w ws) by (apply availabilityForDate_In; auto).
    destruct (Datatypes.length ws =? 0)%nat eqn:E.
    + apply Nat.eqb_eq in E. apply length_zero_iff_nil in E.
      rewrite E in Hin. destruct Hin.
    + apply checkDayHasAvailableSlot_positive. exists w, starts, a. auto.
Qed.

(** [computeAvailableDates] returns as soon as the days of its range can be
    enumerated. *)
Lemma availableDays_returns (now startDate endDate : Date) (days : list Date) :
  daysOfRange startDate endDate = Ok days ->
  exists kept,
    availableDays now availability bookings startDate endDate
      slotDurationMinutes busyTimes = Ok kept.
Proof.
  intros Hdays. unfold availableDays. rewrite Hdays. simpl.
  apply throwing_filter_returns. intros x _. apply dayHasSlot_returns.
Qed.

Lemma computeAvailableDates_returns (startDate endDate : Date) (c : Clock)
    (days : list Date) :
  daysOfRange startDate endDate = Ok days ->
  exists labels,
    run (computeAvailableDates availability bookings startDate endDate
           slotDurationMinutes busyTimes) c = Ok labels.
Proof.
  intros Hdays. rewrite run_computeAvailableDates.
  destruct (availableDays_returns (currentTime c) _ _ _ Hdays) as [kept ->].
  simpl. eexists. reflexivity.
Qed.


End PositiveDuration.

(* ================================================================== *)
(** * Negative durations over blocks that are not reversed *)
(* ================================================================== *)

Section NegativeDuration.

Variable availability : list AvailabilitySlot.
Variable bookings : list BookingSlot.
Variable slotDurationMinutes : Z.
Variable busyTimes : list BusyTime.
Hypothesis negative : slotDurationMinutes < 0.
Hypothesis ordered : Forall wellFormed availability.





End NegativeDuration.

(* ================================================================== *)
(** * Scenarios of the specification *)
(* ================================================================== *)

Import Scenario.

Example scenario_day_label : format_yyyy_MM_dd day = "2024-06-10"%string.
Proof. vm_compute. reflexivity. Qed.

(** Availability 09:00-12:00, one booking 10:00-10:30, 30 minutes, now 08:00:
    five free slots, 10:00-10:30 excluded. *)
Example scenario_one_booking :
  run (computeAvailableSlots [block (time 9 0) (time 12 0)]
         [booking (time 10 0) (time 10 30)] day 30 []) (clockAt (time 8 0))
  = Ok [span (time 9 0) (time 9 30); span (time 9 30) (time 10 0);
        span (time 10 30) (time 11 0); span (time 11 0) (time 11 30);
        span (time 11 30) (time 12 0)].
Proof. vm_compute. reflexivity. Qed.

(** Availability 09:00-10:00 fully covered by a busy interval: no slot. *)
Example scenario_fully_busy :
  run (computeAvailableSlots [block (time 9 0) (time 10 0)] [] day 30
         [span (time 9 0) (time 10 0)]) (clockAt (time 8 0))
  = Ok [].
Proof. vm_compute. reflexivity. Qed.

(** One block from 08:00 of day 1 to 08:00 of day 3: three days listed. *)
Example scenario_spanned_days :
  run (computeAvailableDates [block (time 8 0) (time 56 0)] [] day (time 48 0)
         30 []) (clockAt (time 7 0))
  = Ok ["2024-06-10"%string; "2024-06-11"%string; "2024-06-12"%string].
Proof. vm_compute. reflexivity. Qed.

(** Yesterday is dropped from a range that starts before today. *)
Example past_days_dropped :
  run (computeAvailableDates
         [block (time (-15) 0) (time (-14) 0); block (time 9 0) (time 10 0)]
         [] (time (-24) 0) day 30 []) (clockAt (time 8 0))
  = Ok ["2024-06-10"%string].
Proof. vm_compute. reflexivity. Qed.

(** Overlapping blocks 09:00-10:00 and 09:30-10:30 both yield 09:30-10:00. *)
Example overlapping_blocks_repeat_slots :
  run (computeAvailableSlots
         [block (time 9 0) (time 10 0); block (time 9 30) (time 10 30)]
         [] day 30 []) (clockAt (time 8 0))
  = Ok [span (time 9 0) (time 9 30); span (time 9 30) (time 10 0);
        span (time 9 30) (time 10 0); span (time 10 0) (time 10 30)].
Proof. vm_compute. reflexivity. Qed.

(** A zero duration makes both aggregators throw on a block of the day. *)
Example zero_duration_throws :
  run (computeAvailableSlots [block (time 9 0) (time 10 0)] [] day 0 [])
    (clockAt (time 8 0)) = Throw RangeError
  /\ run (computeAvailableDates [block (time 9 0) (time 10 0)] [] day day 0 [])
       (clockAt (time 8 0)) = Throw RangeError.
Proof. split; vm_compute; reflexivity. Qed.

(* ================================================================== *)
(** * C1: the two aggregators on the same day *)
(* ================================================================== *)

(** C1 at the failing input: at 15:00, with availability 09:00-10:00 on
    the same day, [computeAvailableDates] lists the day while
    [computeAvailableSlots] has no slot left for it. The day check has no
    counterpart of the [currentStart >= now] filter. *)
Theorem today_listed_without_slots :
  run (computeAvailableDates [block (time 9 0) (time 10 0)] [] day day 30 [])
    (clockAt (time 15 0)) = Ok ["2024-06-10"%string]
  /\ run (computeAvailableSlots [block (time 9 0) (time 10 0)] [] day 30 [])
       (clockAt (time 15 0)) = Ok [].
Proof. split; vm_compute; reflexivity. Qed.

(* ================================================================== *)
(** * C2: the conflict rule *)
(* ================================================================== *)

(** C2: a candidate [a, b) is rejected by the conflict check exactly when
    some booking or busy interval [c, d) has [a < d] and [b > c]; a
    candidate whose every booking and busy interval starts exactly at its
    end, ends exactly at its start, or does not overlap it, is among the
    returned free slots; no returned slot overlaps a booking or a busy
    interval; and a day check that answers yes found such a candidate. *)
Theorem conflict_rule (availability : list AvailabilitySlot)
    (bookings : list BookingSlot) (date : Date) (slotDurationMinutes : Z)
    (busyTimes : list BusyTime) (c : Clock) :
  (forall a,
     noConflict bookings busyTimes slotDurationMinutes a = false <->
     (exists booking, In booking bookings
        /\ overlaps a (addMinutes a slotDurationMinutes)
             (startTime booking) (endTime booking))
     \/ (exists busy, In busy busyTimes
        /\ overlaps a (addMinutes a slotDurationMinutes) (start busy) (end_ busy)))
  /\ (forall slots w starts a,
       run (computeAvailableSlots availability bookings date slotDurationMinutes
              busyTimes) c = Ok slots ->
       In w availability -> meetsDay (startOfDay date) (endOfDay date) w ->
       generateSlotStarts (clampStart (startOfDay date) w)
         (clampEnd (endOfDay date) w) slotDurationMinutes = Ok starts ->
       In a starts -> currentTime c <= a ->
       (forall booking, In booking bookings ->
          startTime booking = addMinutes a slotDurationMinutes
          \/ endTime booking = a
          \/ ~ overlaps a (addMinutes a slotDurationMinutes)
                 (startTime booking) (endTime booking)) ->
       (forall busy, In busy busyTimes ->
          start busy = addMinutes a slotDurationMinutes
          \/ end_ busy = a
          \/ ~ overlaps a (addMinutes a slotDurationMinutes)
                 (start busy) (end_ busy)) ->
       In {| start := a; end_ := addMinutes a slotDurationMinutes |} slots)
  /\ (forall slots s,
       run (computeAvailableSlots availability bookings date slotDurationMinutes
              busyTimes) c = Ok slots ->
       In s slots ->
       (forall booking, In booking bookings ->
          ~ overlaps (start s) (end_ s) (startTime booking) (endTime booking))
       /\ (forall busy, In busy busyTimes ->
          ~ overlaps (start s) (end_ s) (start busy) (end_ busy)))
  /\ (forall ws dayStart dayEnd,
       checkDayHasAvailableSlot ws bookings dayStart dayEnd
         slotDurationMinutes busyTimes = Ok true ->
       exists w starts a,
         In w ws
         /\ generateSlotStarts (clampStart dayStart w) (clampEnd dayEnd w)
              slotDurationMinutes = Ok starts
         /\ In a starts
         /\ (forall booking, In booking bookings ->
               ~ overlaps a (addMinutes a slotDurationMinutes)
                   (startTime booking) (endTime booking))
         /\ (forall busy, In busy busyTimes ->
               ~ overlaps a (addMinutes a slotDurationMinutes)
                   (start busy) (end_ busy))).
Proof.
  split; [intros a; apply noConflict_false|].
  split; [|split].
  - intros slots w starts a Hrun Hw Hmeet Hgen Ha Hnow Hbk Hbusy.
    apply (computeAvailableSlots_In _ _ _ _ _ _ _ _ Hrun).
    exists w, starts, a. repeat split; auto.
    apply noConflict_true. unfold overlaps in *. split.
    + intros b Hb. destruct (Hbk b Hb) as [H|[H|H]]; lia.
    + intros b Hb. destruct (Hbusy b Hb) as [H|[H|H]]; lia.
  - intros slots s Hrun Hs. slot_origin Hrun Hs w starts a.
    now apply noConflict_true in Hfree.
  - intros ws dayStart dayEnd H.
    destruct (checkDayHasAvailableSlot_true _ _ _ _ _ _ H)
      as [w [starts [a [Hw [Hgen [Ha Hfree]]]]]].
    apply noConflict_true in Hfree. destruct Hfree as [H1 H2].
    exists w, starts, a. auto.
Qed.

(** Back to back on both sides: with bookings 09:00-09:30 and 10:00-10:30
    the slot 09:30-10:00 is returned. *)
Lemma conflict_rule_witness :
  In (span (time 9 30) (time 10 0))
    [span (time 9 30) (time 10 0)]
  /\ run (computeAvailableSlots [block (time 9 0) (time 10 30)]
           [booking (time 9 0) (time 9 30); booking (time 10 0) (time 10 30)]
           day 30 []) (clockAt (time 8 0))
     = Ok [span (time 9 30) (time 10 0)].
Proof.
  assert (Hrun :
    run (computeAvailableSlots [block (time 9 0) (time 10 30)]
           [booking (time 9 0) (time 9 30); booking (time 10 0) (time 10 30)]
           day 30 []) (clockAt (time 8 0))
    = Ok [span (time 9 30) (time 10 0)]) by (vm_compute; reflexivity).
  split; [|exact Hrun].
  refine (proj1 (proj2 (conflict_rule
            [block (time 9 0) (time 10 30)]
            [booking (time 9 0) (time 9 30); booking (time 10 0) (time 10 30)]
            day 30 [] (clockAt (time 8 0))))
          [span (time 9 30) (time 10 0)] (block (time 9 0) (time 10 30))
          [time 9 0; time 9 30; time 10 0] (time 9 30) Hrun _ _ _ _ _ _ _).
  - left. reflexivity.
  - left. vm_compute. split; discriminate.
  - vm_compute. reflexivity.
  - right. left. reflexivity.
  - vm_compute. discriminate.
  - intros b [<-|[<-|[]]]; [right; left|left]; vm_compute; reflexivity.
  - intros b [].
Defined.

(* ================================================================== *)
(** * C3: the lattice of slot starts *)
(* ================================================================== *)

(** C3: the ranges the aggregators pass to [generateSlotStarts], its only
    callers, are clamped to one calendar day, so none is longer than two
    days; and for every such range and every positive whole number of
    minutes [generateSlotStarts] returns exactly
    [floor((rangeEnd - rangeStart) / duration)] instants (none when the
    range is reversed, where the quotient is negative), the i-th being
    [rangeStart + i * duration], in ascending order, each slot ending at or
    before [rangeEnd]; a range whose start is after its end gives the empty
    sequence and no error. *)
Theorem generateSlotStarts_lattice :
  (forall (date : Date) (w : AvailabilitySlot),
     clampEnd (endOfDay date) w - clampStart (startOfDay date) w
     <= endOfDay date - startOfDay date
     /\ endOfDay date - startOfDay date <= 2 * msPerDay)
  /\ (forall (rangeStart rangeEnd : Date) (durationMinutes : Z),
        0 < durationMinutes ->
        rangeEnd - rangeStart <= 2 * msPerDay ->
        exists starts,
          generateSlotStarts rangeStart rangeEnd durationMinutes = Ok starts
          /\ Z.of_nat (List.length starts)
             = Z.max 0 ((rangeEnd - rangeStart) / (durationMinutes * msPerMinute))
          /\ (forall i, (i < List.length starts)%nat ->
                nth i starts 0
                = rangeStart + Z.of_nat i * (durationMinutes * msPerMinute))
          /\ (forall i j, (i < j < List.length starts)%nat ->
                nth i starts 0 < nth j starts 0)
          /\ (forall s, In s starts -> addMinutes s durationMinutes <= rangeEnd)
          /\ (rangeStart > rangeEnd -> starts = [])).
Proof.
  split.
  { intros date w. pose proof (startOfDay_le_endOfDay date) as Hday.
    split; [now apply clamped_range_within_day|].
    pose proof (day_length date). unfold msPerDay in *. lia. }
  intros rangeStart rangeEnd durationMinutes.
  unfold msPerMinute, msPerDay, Date in *. intros Hd Hrange.
  set (D := durationMinutes * 60000) in *.
  set (n := (rangeEnd - rangeStart) / D) in *.
  assert (HD : 60000 <= D) by (unfold D; lia).
  assert (Hn : n <= JS.max_array_length).
  { unfold n, JS.max_array_length. change (2 ^ 32 - 1) with 4294967295.
    apply Z.div_le_upper_bound; lia. }
  assert (Hgen : generateSlotStarts rangeStart rangeEnd durationMinutes
                 = Ok (List.map (fun i => rangeStart + i * D) (JS.indices n)))
    by (apply generateSlotStarts_nonzero; [lia|exact Hn]).
  exists (List.map (fun i => rangeStart + i * D) (JS.indices n)).
  assert (Hlen : List.length (List.map (fun i => rangeStart + i * D) (JS.indices n))
                 = Z.to_nat n)
    by now rewrite length_map, indices_length.
  assert (Hnth : forall i, (i < Z.to_nat n)%nat ->
            nth i (List.map (fun i => rangeStart + i * D) (JS.indices n)) 0
            = rangeStart + Z.of_nat i * D).
  { intros i Hi.
    rewrite (map_nth_in (fun i => rangeStart + i * D) _ 0 0)
      by (now rewrite indices_length).
    now rewrite indices_nth. }
  split; [exact Hgen|].
  split; [rewrite Hlen; lia|].
  split; [intros i Hi; apply Hnth; now rewrite <- Hlen|].
  split; [intros i j Hij; rewrite Hlen in Hij; rewrite !Hnth by lia; nia|].
  split.
  - intros s Hs.
    now apply (generateSlotStarts_positive_bounds _ _ _ _ _ Hd Hgen Hs).
  - intros Hgt. rewrite indices_nonpos; [reflexivity|].
    unfold n.
    pose proof (Z.div_lt_upper_bound (rangeEnd - rangeStart) D 0 ltac:(lia)).
    lia.
Qed.

(** 09:00-12:00 in 30-minute steps on the epoch day. *)
Lemma generateSlotStarts_lattice_witness :
  exists starts,
    generateSlotStarts 32400000 43200000 30 = Ok starts
    /\ Z.of_nat (List.length starts) = Z.max 0 ((43200000 - 32400000) / (30 * msPerMinute))
    /\ (forall i, (i < List.length starts)%nat ->
          nth i starts 0 = 32400000 + Z.of_nat i * (30 * msPerMinute))
    /\ (forall i j, (i < j < List.length starts)%nat -> nth i starts 0 < nth j starts 0)
    /\ (forall s, In s starts -> addMinutes s 30 <= 43200000)
    /\ (32400000 > 43200000 -> starts = []).
Proof.
  apply (proj2 generateSlotStarts_lattice 32400000 43200000 30).
  - lia.
  - vm_compute. discriminate.
Defined.

(* ================================================================== *)
(** * C4: durations that are not positive *)
(* ================================================================== *)




(* ================================================================== *)
(** * C5: past exclusion *)
(* ================================================================== *)

(** C5: every slot [computeAvailableSlots] returns starts at or after the
    instant the clock gave it, and every label [computeAvailableDates]
    returns is the label of a day (a start of day) that is not before the
    start of the day of that instant. *)
Theorem past_exclusion (availability : list AvailabilitySlot)
    (bookings : list BookingSlot) (slotDurationMinutes : Z)
    (busyTimes : list BusyTime) (c : Clock) :
  (forall date slots s,
     run (computeAvailableSlots availability bookings date slotDurationMinutes
            busyTimes) c = Ok slots ->
     In s slots -> currentTime c <= start s)
  /\ (forall startDate endDate labels label,
     run (computeAvailableDates availability bookings startDate endDate
            slotDurationMinutes busyTimes) c = Ok labels ->
     In label labels ->
     exists d, label = format_yyyy_MM_dd d
               /\ startOfDay d = d
               /\ startOfDay (currentTime c) <= d).
Proof.
  split.
  - intros date slots s Hrun Hs. slot_origin Hrun Hs w starts a. exact Hnow.
  - intros startDate endDate labels label Hrun Hl.
    rewrite run_computeAvailableDates in Hrun. unfold JS.map in Hrun.
    destruct (availableDays (currentTime c) availability bookings startDate
                endDate slotDurationMinutes busyTimes) as [kept|e] eqn:Hkept;
      simpl in Hrun; [|discriminate].
    injection Hrun as <-. apply in_map_iff in Hl. destruct Hl as [d [<- Hd]].
    apply (availableDays_In _ _ _ _ _ _ _ _ _ Hkept) in Hd.
    destruct Hd as [[days [Hdays [Hin _]]] [Htoday _]].
    exists d. repeat split; auto.
    apply (daysOfRange_startOfDay _ _ _ _ Hdays Hin).
Qed.

(** At 10:10 the slots of 09:00-11:00 that started earlier are gone. *)
Lemma past_exclusion_witness :
  run (computeAvailableSlots [block (time 9 0) (time 11 0)] [] day 30 [])
    (clockAt (time 10 10))
  = Ok [span (time 10 30) (time 11 0)]
  /\ time 10 10 <= time 10 30.
Proof.
  assert (Hrun :
    run (computeAvailableSlots [block (time 9 0) (time 11 0)] [] day 30 [])
      (clockAt (time 10 10))
    = Ok [span (time 10 30) (time 11 0)]) by (vm_compute; reflexivity).
  split; [exact Hrun|].
  apply (proj1 (past_exclusion [block (time 9 0) (time 11 0)] [] 30 []
                  (clockAt (time 10 10)))
           day [span (time 10 30) (time 11 0)] (span (time 10 30) (time 11 0)) Hrun).
  left. reflexivity.
Defined.

(* ================================================================== *)
(** * C6: clipping to the availability block and to the day *)
(* ================================================================== *)

(** C6 (amended): every slot [computeAvailableSlots] returns comes from a
    candidate of an availability block that meets the day, and ends its
    start plus the requested duration; unless the duration is negative and
    that block has its start after its end, the slot starts at or after
    [max(block.start, dayStart)] and ends at or before
    [min(block.end, dayEnd)]. *)
Theorem slots_within_clipped_block (availability : list AvailabilitySlot)
    (bookings : list BookingSlot) (date : Date) (slotDurationMinutes : Z)
    (busyTimes : list BusyTime) (c : Clock) (slots : list BusyTime)
    (s : BusyTime) :
  run (computeAvailableSlots availability bookings date slotDurationMinutes
         busyTimes) c = Ok slots ->
  In s slots ->
  exists w starts,
    In w availability
    /\ meetsDay (startOfDay date) (endOfDay date) w
    /\ generateSlotStarts (clampStart (startOfDay date) w)
         (clampEnd (endOfDay date) w) slotDurationMinutes = Ok starts
    /\ In (start s) starts
    /\ end_ s = addMinutes (start s) slotDurationMinutes
    /\ (0 <= slotDurationMinutes \/ wellFormed w ->
        Z.max (startDateTime w) (startOfDay date) <= start s
        /\ end_ s <= Z.min (endDateTime w) (endOfDay date)).
Proof.
  intros Hrun Hs. slot_origin Hrun Hs w starts a.
  exists w, starts. simpl.
  split; [assumption|]. split; [assumption|]. split; [assumption|].
  split; [assumption|]. split; [reflexivity|].
  intros Hpre. rewrite <- clampStart_max, <- clampEnd_min.
  now apply (candidate_within_clamp _ _ _ _ starts _
               (startOfDay_le_endOfDay date)).
Qed.

(** A block from 22:00 of the day before to 01:00: the slot 00:30-01:00 lies
    between midnight and the block's end. *)
Lemma slots_within_clipped_block_witness :
  exists w starts,
    In w [block (time (-2) 0) (time 1 0)]
    /\ meetsDay (startOfDay day) (endOfDay day) w
    /\ generateSlotStarts (clampStart (startOfDay day) w)
         (clampEnd (endOfDay day) w) 30 = Ok starts
    /\ In (start (span (time 0 30) (time 1 0))) starts
    /\ end_ (span (time 0 30) (time 1 0))
       = addMinutes (start (span (time 0 30) (time 1 0))) 30
    /\ (0 <= 30 \/ wellFormed w ->
        Z.max (startDateTime w) (startOfDay day)
          <= start (span (time 0 30) (time 1 0))
        /\ end_ (span (time 0 30) (time 1 0))
           <= Z.min (endDateTime w) (endOfDay day)).
Proof.
  apply (slots_within_clipped_block [block (time (-2) 0) (time 1 0)] [] day 30 []
           (clockAt (time (-3) 0))
           [span (time 0 0) (time 0 30); span (time 0 30) (time 1 0)]).
  - vm_compute. reflexivity.
  - right. left. reflexivity.
Defined.

(** C6 fails as stated: with a duration of -30 minutes and a block that runs
    backwards from 01:40 to 00:00, the returned slot that starts at 01:10
    starts before the block's clamped start 01:40 and ends, at 00:40, after
    its clamped end 00:00. *)
Lemma slots_within_clipped_block_counterexample :
  let availability := [block (time 1 40) (time 0 0)] in
  let s := span (time 1 10) (time 0 40) in
  run (computeAvailableSlots availability [] day (-30) []) (clockAt (time 0 0))
  = Ok [span (time 1 40) (time 1 10); s; span (time 0 40) (time 0 10)]
  /\ forall w, In w availability ->
       ~ (Z.max (startDateTime w) (startOfDay day) <= start s
          /\ end_ s <= Z.min (endDateTime w) (endOfDay day)).
Proof.
  split; [vm_compute; reflexivity|].
  intros w [<-|[]]. vm_compute. intros [H _]. now apply H.
Qed.

(* ================================================================== *)
(** * C7: which blocks meet a day *)
(* ================================================================== *)

(** C7 (amended): the blocks kept for a day are those whose start falls
    within the day, or whose end falls within the day, or that span it, and
    for a positive whole number of minutes [computeAvailableDates] lists a
    day exactly when the day belongs to the range, is not before today, and
    one of the blocks kept for it has a candidate slot without conflict.
    In particular, with a block from 08:00 of day 1 to 08:00 of day 3, a
    positive duration that fits into the middle day, no booking and no busy
    time that overlaps the middle day, and a query over day 1 to day 3 made
    no later than the middle day, the middle day is listed although the
    block neither starts nor ends on it. *)
Theorem spanned_day_is_available :
  (forall availability dayStart dayEnd,
     (forall w, In w (availabilityForDate availability dayStart dayEnd) <->
                In w availability
                /\ ((dayStart <= startDateTime w <= dayEnd)
                    \/ (dayStart <= endDateTime w <= dayEnd)
                    \/ (startDateTime w <= dayStart /\ endDateTime w >= dayEnd)))
     /\ (availabilityForDate availability dayStart dayEnd <> [] <->
         exists w, In w availability
                   /\ ((dayStart <= startDateTime w <= dayEnd)
                       \/ (dayStart <= endDateTime w <= dayEnd)
                       \/ (startDateTime w <= dayStart /\ endDateTime w >= dayEnd))))
  /\ (forall availability bookings startDate endDate slotDurationMinutes
             busyTimes c labels,
       0 < slotDurationMinutes ->
       run (computeAvailableDates availability bookings startDate endDate
              slotDurationMinutes busyTimes) c = Ok labels ->
       exists days,
         labels = List.map format_yyyy_MM_dd days
         /\ forall day,
              In day days <->
              rangeContains startDate endDate day
              /\ startOfDay (currentTime c) <= day
              /\ exists w starts a,
                   In w availability
                   /\ ((startOfDay day <= startDateTime w <= endOfDay day)
                       \/ (startOfDay day <= endDateTime w <= endOfDay day)
                       \/ (startDateTime w <= startOfDay day
                           /\ endDateTime w >= endOfDay day))
                   /\ generateSlotStarts (clampStart (startOfDay day) w)
                        (clampEnd (endOfDay day) w) slotDurationMinutes
                      = Ok starts
                   /\ In a starts
                   /\ (forall booking, In booking bookings ->
                         ~ overlaps a (addMinutes a slotDurationMinutes)
                             (startTime booking) (endTime booking))
                   /\ (forall busy, In busy busyTimes ->
                         ~ overlaps a (addMinutes a slotDurationMinutes)
                             (start busy) (end_ busy)))
  /\ (forall key day1 bookings busyTimes slotDurationMinutes c,
       let day2 := day1 + msPerDay in
       let day3 := day1 + 2 * msPerDay in
       let w := {| _key := key;
                   startDateTime := day1 + 8 * 3600000;
                   endDateTime := day3 + 8 * 3600000 |} in
       startOfDay day1 = day1 ->
       0 < slotDurationMinutes ->
       slotDurationMinutes * msPerMinute <= endOfDay day2 - startOfDay day2 ->
       startOfDay (currentTime c) <= day2 ->
       (forall booking, In booking bookings ->
          ~ overlaps day2 day3 (startTime booking) (endTime booking)) ->
       (forall busy, In busy busyTimes ->
          ~ overlaps day2 day3 (start busy) (end_ busy)) ->
       ~ (startOfDay day2 <= startDateTime w <= endOfDay day2)
       /\ ~ (startOfDay day2 <= endDateTime w <= endOfDay day2)
       /\ exists labels,
            run (computeAvailableDates [w] bookings day1 day3
                   slotDurationMinutes busyTimes) c = Ok labels
            /\ In (format_yyyy_MM_dd day2) labels).
Proof.
  split; [|split].
  - intros availability dayStart dayEnd. split.
    + intros w. apply availabilityForDate_In.
    + split.
      * intros Hne.
        destruct (availabilityForDate availability dayStart dayEnd)
          as [|w ws] eqn:E; [congruence|].
        exists w. apply availabilityForDate_In. rewrite E. now left.
      * intros [w Hw] Hnil. apply availabilityForDate_In in Hw.
        rewrite Hnil in Hw. destruct Hw.
  - intros availability bookings startDate endDate d busyTimes c labels Hd Hrun.
    rewrite run_computeAvailableDates in Hrun. unfold JS.map in Hrun.
    destruct (availableDays (currentTime c) availability bookings startDate
                endDate d busyTimes) as [kept|e] eqn:Hkept;
      simpl in Hrun; [|discriminate].
    injection Hrun as <-. exists kept. split; [reflexivity|].
    intros day0.
    rewrite (availableDays_In _ _ _ _ _ _ _ _ day0 Hkept).
    rewrite (dayHasSlot_true availability bookings d busyTimes Hd day0).
    unfold meetsDay.
    split.
    + intros [Hrange [Htoday [w [starts [a [Hw [Hmeet [Hgen [Ha Hfree]]]]]]]]].
      split; [exact Hrange|]. split; [exact Htoday|].
      exists w, starts, a.
      destruct (noConflict_true bookings busyTimes d a) as [Hfwd _].
      destruct (Hfwd Hfree) as [Hbk Hbusy]. tauto.
    + intros [Hrange [Htoday [w [starts [a [Hw [Hmeet [Hgen [Ha [Hbk Hbusy]]]]]]]]]].
      split; [exact Hrange|]. split; [exact Htoday|].
      exists w, starts, a.
      assert (Hfree : noConflict bookings busyTimes d a = true)
        by (apply noConflict_true; split; assumption).
      tauto.
  - intros key day1 bookings busyTimes d c day2 day3 w Hday1 Hd Hfits Htoday
      Hbk Hbusy.
    assert (Hday2 : startOfDay day2 = day2) by now apply startOfDay_next.
    assert (Hend2 : endOfDay day2 = day2 + (msPerDay - 1))
      by (unfold endOfDay; now rewrite Hday2).
    assert (Hday3 : day3 = day2 + msPerDay) by (unfold day2, day3; lia).
    rewrite Hday2, Hend2 in Hfits.
    unfold msPerDay, msPerMinute in *.
    split; [simpl; lia|]. split; [simpl; lia|].
    assert (Hdays : daysOfRange day1 day3 = Ok [day1; day2; day3]).
    { unfold daysOfRange. rewrite Hday1.
      replace (day3 - day1) with 172800000 by (unfold day3; lia).
      unfold day2, day3, msPerDay. vm_compute JS.plus.
      unfold JS.Array_from. vm_compute JS.ToLength.
      change (JS.max_array_length <? 3) with false. cbv iota.
      vm_compute JS.indices. simpl. unfold addDays, msPerDay.
      repeat f_equal; lia. }
    destruct (availableDays_returns [w] bookings d busyTimes Hd
                (currentTime c) day1 day3 _ Hdays) as [kept Hkept].
    exists (List.map format_yyyy_MM_dd kept).
    split; [rewrite run_computeAvailableDates, Hkept; reflexivity|].
    apply in_map.
    apply (availableDays_In _ _ _ _ _ _ _ _ day2 Hkept).
    split; [|split].
    + exists [day1; day2; day3]. split; [exact Hdays|].
      split; [right; left; reflexivity|lia].
    + exact Htoday.
    + apply dayHasSlot_true; [lia|].
      assert (Hcs : clampStart (startOfDay day2) w = day2)
        by (rewrite clampStart_max, Hday2; simpl; lia).
      assert (Hce : clampEnd (endOfDay day2) w = day2 + 86399999)
        by (rewrite clampEnd_min, Hend2; simpl; lia).
      assert (Hcount : 1 <= 86399999 / (d * 60000))
        by (apply Z.div_le_lower_bound; lia).
      exists w. eexists. exists day2.
      split; [now left|].
      split; [right; right; rewrite Hday2, Hend2; simpl; lia|].
      split; [|split].
      * rewrite Hcs, Hce. apply generateSlotStarts_nonzero; [lia|].
        replace (day2 + 86399999 - day2) with 86399999 by lia.
        unfold JS.max_array_length. apply Z.div_le_upper_bound; [lia|].
        change (2 ^ 32 - 1) with 4294967295. lia.
      * apply in_map_iff. exists 0. split; [lia|].
        apply indices_In.
        replace (day2 + 86399999 - day2) with 86399999 by lia. lia.
      * apply noConflict_true. unfold overlaps, addMinutes, msPerMinute in *.
        split; intros b Hb; [specialize (Hbk b Hb)|specialize (Hbusy b Hb)]; lia.
Qed.

(** The scenario on 2024-06-10 .. 2024-06-12 with 30-minute slots, asked at
    07:00 of the first day. *)
Lemma spanned_day_is_available_witness :
  exists labels,
    run (computeAvailableDates
           [{| _key := "block";
               startDateTime := day + 8 * 3600000;
               endDateTime := day + 2 * msPerDay + 8 * 3600000 |}]
           [] day (day + 2 * msPerDay) 30 []) (clockAt (time 7 0)) = Ok labels
    /\ In (format_yyyy_MM_dd (day + msPerDay)) labels.
Proof.
  apply (proj2 (proj2 spanned_day_is_available) "block"%string day [] [] 30
           (clockAt (time 7 0))).
  - vm_compute. reflexivity.
  - lia.
  - vm_compute. discriminate.
  - vm_compute. discriminate.
  - intros b [].
  - intros b [].
Defined.

(** C7 fails as stated: the block from 08:00 of 2024-06-10 to 08:00 of
    2024-06-12 is kept for the middle day, which it spans, and yet the
    middle day is not listed by a query over the three days without any
    booking or busy time when the slots last 1440 minutes (none fits before
    the last millisecond of a day), nor when the query is made on the third
    day, nor when a busy time covers the middle day. *)
Lemma spanned_day_is_available_counterexample :
  let w := {| _key := "block";
              startDateTime := day + 8 * 3600000;
              endDateTime := day + 2 * msPerDay + 8 * 3600000 |} in
  availabilityForDate [w] (startOfDay (day + msPerDay)) (endOfDay (day + msPerDay))
  = [w]
  /\ format_yyyy_MM_dd (day + msPerDay) = "2024-06-11"%string
  /\ run (computeAvailableDates [w] [] day (day + 2 * msPerDay) 1440 [])
       (clockAt (time 7 0)) = Ok []
  /\ run (computeAvailableDates [w] [] day (day + 2 * msPerDay) 30 [])
       (clockAt (day + 2 * msPerDay)) = Ok ["2024-06-12"%string]
  /\ run (computeAvailableDates [w] [] day (day + 2 * msPerDay) 30
            [span (day + msPerDay) (day + 2 * msPerDay)])
       (clockAt (time 7 0)) = Ok ["2024-06-10"%string; "2024-06-12"%string].
Proof.
  repeat split; vm_compute; reflexivity.
Qed.

(* ================================================================== *)
(** * C8: independent blocks *)
(* ================================================================== *)

(** Only the span of a block matters, not its key. *)
Lemma computeAvailableSlots_same_span (w w' : AvailabilitySlot)
    (bookings : list BookingSlot) (date : Date) (slotDurationMinutes : Z)
    (busyTimes : list BusyTime) (c : Clock) :
  startDateTime w = startDateTime w' -> endDateTime w = endDateTime w' ->
  run (computeAvailableSlots [w'] bookings date slotDurationMinutes busyTimes) c
  = run (computeAvailableSlots [w] bookings date slotDurationMinutes busyTimes) c.
Proof.
  destruct w as [k ws we], w' as [k' ws' we']. simpl. intros <- <-.
  rewrite !run_computeAvailableSlots. unfold availabilityForDate. simpl.
  destruct (isWithinInterval (parseISO ws) (startOfDay date) (endOfDay date)
            || isWithinInterval (parseISO we) (startOfDay date) (endOfDay date)
            || (parseISO ws <=? startOfDay date)
               && (parseISO we >=? endOfDay date));
    reflexivity.
Qed.

(** C8: [computeAvailableSlots] treats each availability block on its own
    and concatenates their surviving slots in the order of the input: the
    result for [xs ++ ys] is the result for [xs] followed by the result for
    [ys]; hence two blocks with the same span yield the free slots of one of
    them twice over, every slot occurring twice as often, nothing being
    merged or removed. *)
Theorem blocks_are_independent (bookings : list BookingSlot) (date : Date)
    (slotDurationMinutes : Z) (busyTimes : list BusyTime) (c : Clock) :
  (forall xs ys,
     run (computeAvailableSlots (xs ++ ys) bookings date slotDurationMinutes
            busyTimes) c
     = concat2
         (run (computeAvailableSlots xs bookings date slotDurationMinutes
                 busyTimes) c)
         (run (computeAvailableSlots ys bookings date slotDurationMinutes
                 busyTimes) c))
  /\ (forall w w' slots,
       startDateTime w = startDateTime w' -> endDateTime w = endDateTime w' ->
       run (computeAvailableSlots [w] bookings date slotDurationMinutes
              busyTimes) c = Ok slots ->
       run (computeAvailableSlots [w; w'] bookings date slotDurationMinutes
              busyTimes) c = Ok (slots ++ slots)
       /\ forall s, count_occ BusyTime_eq_dec (slots ++ slots) s
                    = (2 * count_occ BusyTime_eq_dec slots s)%nat).
Proof.
  assert (Happ : forall xs ys,
     run (computeAvailableSlots (xs ++ ys) bookings date slotDurationMinutes
            busyTimes) c
     = concat2
         (run (computeAvailableSlots xs bookings date slotDurationMinutes
                 busyTimes) c)
         (run (computeAvailableSlots ys bookings date slotDurationMinutes
                 busyTimes) c)).
  { intros xs ys. rewrite !run_computeAvailableSlots, availabilityForDate_app.
    apply flatMap_app. }
  split; [exact Happ|].
  intros w w' slots Hs He Hrun. split.
  - change [w; w'] with ([w] ++ [w']). rewrite Happ.
    rewrite (computeAvailableSlots_same_span w w' _ _ _ _ _ Hs He), Hrun.
    reflexivity.
  - intros s. rewrite count_occ_app. lia.
Qed.

(** Two copies of the block 09:00-10:00 give its two slots twice. *)
Lemma blocks_are_independent_witness :
  run (computeAvailableSlots
         [block (time 9 0) (time 10 0);
          {| _key := "copy"; startDateTime := time 9 0; endDateTime := time 10 0 |}]
         [] day 30 []) (clockAt (time 8 0))
  = Ok ([span (time 9 0) (time 9 30); span (time 9 30) (time 10 0)]
        ++ [span (time 9 0) (time 9 30); span (time 9 30) (time 10 0)]).
Proof.
  apply (proj2 (blocks_are_independent [] day 30 [] (clockAt (time 8 0)))
           (block (time 9 0) (time 10 0))
           {| _key := "copy"; startDateTime := time 9 0; endDateTime := time 10 0 |}
           [span (time 9 0) (time 9 30); span (time 9 30) (time 10 0)]).
  - reflexivity.
  - reflexivity.
  - vm_compute. reflexivity.
Defined.

(* ================================================================== *)
(** * C9: one reading of the clock *)
(* ================================================================== *)

(** C9: each aggregator reads the clock exactly once, and its outcome is a
    function of its arguments and of the instant that one reading gives:
    on two clocks that agree on the next reading, whatever their other
    readings, [computeAvailableSlots] and [computeAvailableDates] return the
    same content (or throw the same error). *)
Theorem aggregators_depend_on_one_reading (availability : list AvailabilitySlot)
    (bookings : list BookingSlot) (date startDate endDate : Date)
    (slotDurationMinutes : Z) (busyTimes : list BusyTime) (c1 c2 : Clock) :
  currentTime c1 = currentTime c2 ->
  run (computeAvailableSlots availability bookings date slotDurationMinutes
         busyTimes) c1
  = run (computeAvailableSlots availability bookings date slotDurationMinutes
           busyTimes) c2
  /\ run (computeAvailableDates availability bookings startDate endDate
           slotDurationMinutes busyTimes) c1
     = run (computeAvailableDates availability bookings startDate endDate
              slotDurationMinutes busyTimes) c2
  /\ reads (snd (computeAvailableSlots availability bookings date
                   slotDurationMinutes busyTimes c1)) = S (reads c1)
  /\ reads (snd (computeAvailableDates availability bookings startDate endDate
                   slotDurationMinutes busyTimes c1)) = S (reads c1).
Proof.
  intros Hnow. split; [|split; [|split]].
  - rewrite !run_computeAvailableSlots. now rewrite Hnow.
  - rewrite !run_computeAvailableDates. now rewrite Hnow.
  - apply computeAvailableSlots_reads.
  - apply computeAvailableDates_reads.
Qed.

(** A fresh clock stuck at 08:00, and a clock on its fourth reading that
    shows 08:00 now and something else at every other reading. *)
Lemma aggregators_depend_on_one_reading_witness :
  let c2 := {| reading := fun n => if Nat.eqb n 3 then time 8 0
                                   else Z.of_nat n * 1000;
               reads := 3 |} in
  run (computeAvailableSlots [block (time 9 0) (time 10 0)] [] day 30 [])
    (clockAt (time 8 0))
  = run (computeAvailableSlots [block (time 9 0) (time 10 0)] [] day 30 []) c2
  /\ run (computeAvailableDates [block (time 9 0) (time 10 0)] [] day day 30 [])
       (clockAt (time 8 0))
     = run (computeAvailableDates [block (time 9 0) (time 10 0)] [] day day 30 [])
         c2.
Proof.
  intros c2.
  pose proof (aggregators_depend_on_one_reading [block (time 9 0) (time 10 0)] []
                day day day 30 [] (clockAt (time 8 0)) c2 eq_refl)
    as [Hslots [Hdates _]].
  split; assumption.
Defined.

(* ================================================================== *)
(** * C10: the end of the day *)
(* ================================================================== *)

(** C10 (amended): the day used for clipping and intersection ends at its
    last millisecond, 23:59:59.999, one millisecond before the next
    midnight. Unless the duration is negative and some availability block
    has its start after its end, every slot [computeAvailableSlots] returns
    ends at or before that millisecond, so never exactly at midnight; and
    for a block that extends exactly to midnight the candidate that would
    end at midnight is not generated. *)
Theorem day_ends_before_midnight (availability : list AvailabilitySlot)
    (bookings : list BookingSlot) (date : Date) (slotDurationMinutes : Z)
    (busyTimes : list BusyTime) (c : Clock) :
  let midnight := startOfDay date + msPerDay in
  endOfDay date = midnight - 1
  /\ (forall slots s,
       0 <= slotDurationMinutes \/ Forall wellFormed availability ->
       run (computeAvailableSlots availability bookings date
              slotDurationMinutes busyTimes) c = Ok slots ->
       In s slots ->
       end_ s <= endOfDay date /\ end_ s <> midnight)
  /\ (forall w starts,
       0 <= slotDurationMinutes \/ wellFormed w ->
       meetsDay (startOfDay date) (endOfDay date) w ->
       endDateTime w = midnight ->
       generateSlotStarts (clampStart (startOfDay date) w)
         (clampEnd (endOfDay date) w) slotDurationMinutes = Ok starts ->
       ~ In (addMinutes midnight (- slotDurationMinutes)) starts).
Proof.
  intros midnight.
  assert (Hend : endOfDay date = midnight - 1)
    by (unfold midnight, endOfDay; lia).
  split; [exact Hend|]. split.
  - intros slots s Hpre Hrun Hs. slot_origin Hrun Hs w starts a.
    assert (Hpre' : 0 <= slotDurationMinutes \/ wellFormed w).
    { destruct Hpre as [Hd|Hwf]; [now left|right].
      rewrite Forall_forall in Hwf. now apply Hwf. }
    pose proof (candidate_within_clamp _ _ _ _ _ _
                  (startOfDay_le_endOfDay date) Hmeet Hpre' Hgen Hcand) as [_ Hle].
    rewrite clampEnd_min in Hle. simpl. lia.
  - intros w starts Hpre Hmeet Hw Hgen Ha.
    pose proof (candidate_within_clamp _ _ _ _ _ _
                  (startOfDay_le_endOfDay date) Hmeet Hpre Hgen Ha) as [_ Hle].
    rewrite clampEnd_min in Hle. unfold addMinutes in Hle. lia.
Qed.

(** A block 23:00-24:00 gives the slot 23:00-23:30 only: 23:30-24:00 would
    end one millisecond after the end of the day. *)
Lemma day_ends_before_midnight_witness :
  run (computeAvailableSlots [block (time 23 0) (time 24 0)] [] day 30 [])
    (clockAt (time 8 0))
  = Ok [span (time 23 0) (time 23 30)]
  /\ end_ (span (time 23 0) (time 23 30)) <= endOfDay day
  /\ end_ (span (time 23 0) (time 23 30)) <> startOfDay day + msPerDay
  /\ ~ In (addMinutes (startOfDay day + msPerDay) (- 30)) [time 23 0].
Proof.
  assert (Hrun :
    run (computeAvailableSlots [block (time 23 0) (time 24 0)] [] day 30 [])
      (clockAt (time 8 0))
    = Ok [span (time 23 0) (time 23 30)]) by (vm_compute; reflexivity).
  split; [exact Hrun|].
  pose proof (day_ends_before_midnight [block (time 23 0) (time 24 0)] [] day 30 []
                (clockAt (time 8 0))) as [_ [Hslots Hgen]].
  split; [|split].
  - apply (Hslots [span (time 23 0) (time 23 30)] (span (time 23 0) (time 23 30)));
      [left; lia|exact Hrun|left; reflexivity].
  - apply (Hslots [span (time 23 0) (time 23 30)] (span (time 23 0) (time 23 30)));
      [left; lia|exact Hrun|left; reflexivity].
  - apply (Hgen (block (time 23 0) (time 24 0)) [time 23 0]).
    + left. lia.
    + left. vm_compute. split; discriminate.
    + vm_compute. reflexivity.
    + vm_compute. reflexivity.
Defined.

(** C10 fails as stated: with a duration of -30 minutes and a block that
    runs backwards from 00:00 two days later to 00:00 of the queried day,
    the first returned slot ends at 23:30 of the next day, after
    23:59:59.999 of the queried day. *)
Lemma day_ends_before_midnight_counterexample :
  exists slots s,
    run (computeAvailableSlots [block (time 48 0) (time 0 0)] [] day (-30) [])
      (clockAt (time 0 0)) = Ok slots
    /\ In s slots
    /\ s = span (time 48 0) (time 47 30)
    /\ ~ end_ s <= endOfDay day.
Proof.
  destruct (run (computeAvailableSlots [block (time 48 0) (time 0 0)] [] day (-30) [])
              (clockAt (time 0 0))) as [slots|e] eqn:Hrun;
    [|vm_compute in Hrun; discriminate].
  exists slots, (span (time 48 0) (time 47 30)). split; [reflexivity|]. split.
  - apply (computeAvailableSlots_In _ _ _ _ _ _ _ _ Hrun).
    exists (block (time 48 0) (time 0 0)).
    eexists. exists (time 48 0). split; [left; reflexivity|].
    split; [right; left; vm_compute; split; discriminate|].
    split; [vm_compute; reflexivity|].
    split; [left; reflexivity|].
    split; [vm_compute; discriminate|].
    split; vm_compute; reflexivity.
  - split; [reflexivity|]. vm_compute. intros H. now apply H.
Qed.

(* ================================================================== *)
(** * Further facts about arrays *)
(* ================================================================== *)


Section MoreArrays.

Context {A B : Type}.

Lemma Array_from_Ok (n : JS.number) (f : Z -> A) (xs : list A) :
  JS.Array_from n f = Ok xs -> xs = List.map f (JS.indices (JS.ToLength n)).
Proof.
  unfold JS.Array_from.
  destruct (JS.max_array_length <? JS.ToLength n); [discriminate|].
  now intros [= <-].
Qed.

Lemma StronglySorted_filter (R : A -> A -> Prop) (p : A -> bool) (l : list A) :
  StronglySorted R l -> StronglySorted R (List.filter p l).
Proof.
  induction 1 as [|x l Hl IH Hx]; simpl; [constructor|].
  destruct (p x); [|exact IH].
  constructor; [exact IH|].
  rewrite Forall_forall in *. intros y Hy. apply List.filter_In in Hy.
  now apply Hx.
Qed.

Lemma StronglySorted_throwing_filter (R : A -> A -> Prop)
    (f : A -> JS.result bool) (l kept : list A) :
  JS.filter f l = Ok kept -> StronglySorted R l -> StronglySorted R kept.
Proof.
  intros Hkept Hsorted. revert kept Hkept.
  induction Hsorted as [|x l Hl IH Hx]; simpl; intros kept Hkept.
  - injection Hkept as <-. constructor.
  - destruct (f x) as [keep|e]; simpl in Hkept; [|discriminate].
    destruct (JS.filter f l) as [rest|e] eqn:Hrest; simpl in Hkept;
      [|discriminate].
    injection Hkept as <-. specialize (IH rest eq_refl).
    destruct keep; [|exact IH].
    constructor; [exact IH|].
    rewrite Forall_forall in *. intros y Hy.
    apply (throwing_filter_In _ _ _ y Hrest) in Hy. now apply Hx.
Qed.

Lemma StronglySorted_map (R : A -> A -> Prop) (S : B -> B -> Prop)
    (f : A -> B) (l : list A) :
  (forall x y, R x y -> S (f x) (f y)) ->
  StronglySorted R l -> StronglySorted S (List.map f l).
Proof.
  intros Hf. induction 1 as [|x l Hl IH Hx]; simpl; constructor; [exact IH|].
  rewrite Forall_forall in *. intros y Hy. apply in_map_iff in Hy.
  destruct Hy as [z [<- Hz]]. auto.
Qed.

Lemma filter_none (p : A -> bool) (l : list A) :
  (forall x, In x l -> p x = false) -> List.filter p l = [].
Proof.
  induction l as [|x l IH]; simpl; intros Hp; [reflexivity|].
  rewrite (Hp x (or_introl eq_refl)). apply IH. intros y Hy. apply Hp. now right.
Qed.

Lemma filter_and (p q : A -> bool) (l : list A) :
  List.filter (fun x => p x && q x) l = List.filter q (List.filter p l).
Proof.
  induction l as [|x l IH]; simpl; [reflexivity|].
  destruct (p x); simpl; [destruct (q x)|]; now rewrite IH.
Qed.

Lemma filter_map_commute (f : A -> B) (p : B -> bool) (l : list A) :
  List.filter p (List.map f l) = List.map f (List.filter (fun x => p (f x)) l).
Proof.
  induction l as [|x l IH]; simpl; [reflexivity|].
  destruct (p (f x)); simpl; now rewrite IH.
Qed.

Lemma flatMap_ext (f g : A -> JS.result (list B)) (xs : list A) :
  (forall x, In x xs -> f x = g x) -> JS.flatMap f xs = JS.flatMap g xs.
Proof.
  induction xs as [|x xs IH]; simpl; intros H; [reflexivity|].
  rewrite (H x (or_introl eq_refl)), IH; [reflexivity|].
  intros y Hy. apply H. now right.
Qed.

Lemma throwing_filter_ext (f g : A -> JS.result bool) (xs : list A) :
  (forall x, In x xs -> f x = g x) -> JS.filter f xs = JS.filter g xs.
Proof.
  induction xs as [|x xs IH]; simpl; intros H; [reflexivity|].
  rewrite (H x (or_introl eq_refl)), IH; [reflexivity|].
  intros y Hy. apply H. now right.
Qed.

Lemma some_ext (f g : A -> JS.result bool) (xs : list A) :
  (forall x, In x xs -> f x = g x) -> JS.some f xs = JS.some g xs.
Proof.
  induction xs as [|x xs IH]; simpl; intros H; [reflexivity|].
  rewrite (H x (or_introl eq_refl)), IH; [reflexivity|].
  intros y Hy. apply H. now right.
Qed.

(** Filtering every array a [flatMap] callback returns filters the result. *)
Lemma flatMap_filtered (f : A -> JS.result (list B)) (p : B -> bool)
    (xs : list A) :
  JS.flatMap (fun x => JS.bind (f x) (fun ys => Ok (List.filter p ys))) xs
  = JS.bind (JS.flatMap f xs) (fun ys => Ok (List.filter p ys)).
Proof.
  induction xs as [|x xs IH]; simpl; [reflexivity|].
  destruct (f x) as [ys|e]; simpl; [|reflexivity].
  rewrite IH. destruct (JS.flatMap f xs) as [zs|e]; simpl; [|reflexivity].
  now rewrite filter_app.
Qed.

Lemma flatMap_length (f : A -> JS.result (list B)) (xs : list A)
    (ys : list B) (bound : nat) :
  (forall x zs, In x xs -> f x = Ok zs -> (List.length zs <= bound)%nat) ->
  JS.flatMap f xs = Ok ys ->
  (List.length ys <= List.length xs * bound)%nat.
Proof.
  revert ys. induction xs as [|x xs IH]; simpl; intros ys Hf Hys.
  - injection Hys as <-. simpl. lia.
  - destruct (f x) as [zs|e] eqn:Hx; simpl in Hys; [|discriminate].
    destruct (JS.flatMap f xs) as [us|e] eqn:Hxs; simpl in Hys; [|discriminate].
    injection Hys as <-. rewrite length_app.
    pose proof (Hf x zs (or_introl eq_refl) Hx).
    assert (List.length us <= List.length xs * bound)%nat
      by (apply IH; [intros y ws Hy; apply Hf; now right|reflexivity]).
    lia.
Qed.

End MoreArrays.

Lemma indices_sorted (n : Z) : StronglySorted Z.lt (JS.indices n).
Proof.
  unfold JS.indices. generalize (Z.to_nat n) as len. intros len.
  generalize 0%nat as from. induction len as [|len IH]; intros from; simpl.
  - constructor.
  - constructor; [apply IH|].
    rewrite Forall_forall. intros y Hy. apply in_map_iff in Hy.
    destruct Hy as [k [<- Hk]]. apply in_seq in Hk. lia.
Qed.



(* ================================================================== *)
(** * Further properties of the aggregators *)
(* ================================================================== *)

(** The number of days [computeAvailableDates] enumerates. *)
Lemma daysOfRange_finite (startDate endDate : Date) :
  daysOfRange startDate endDate =
  JS.Array_from (JS.Finite (- ((- (endDate - startDate)) / msPerDay) + 1))
    (fun i => addDays (startOfDay startDate) i).
Proof. reflexivity. Qed.

(** The days can be enumerated unless the range is longer than 2^32 - 2
    days, which no two valid dates are apart. *)
Lemma daysOfRange_returns (startDate endDate : Date) :
  endDate - startDate <= (2 ^ 32 - 2) * msPerDay ->
  exists days, daysOfRange startDate endDate = Ok days.
Proof.
  intros Hrange. rewrite daysOfRange_finite. eexists.
  apply Array_from_finite. unfold JS.max_array_length, msPerDay in *.
  change (2 ^ 32 - 2) with 4294967294 in Hrange.
  change (2 ^ 32 - 1) with 4294967295.
  Z.div_mod_to_equations. lia.
Qed.

(** X1: for a duration that is a positive whole number of minutes neither
    aggregator throws: [computeAvailableSlots] returns for every input, and
    [computeAvailableDates] returns for every range of at most 2^32 - 2
    days. *)
Theorem positive_duration_never_throws (availability : list AvailabilitySlot)
    (bookings : list BookingSlot) (slotDurationMinutes : Z)
    (busyTimes : list BusyTime) (c : Clock) :
  0 < slotDurationMinutes ->
  (forall date,
     exists slots,
       run (computeAvailableSlots availability bookings date
              slotDurationMinutes busyTimes) c = Ok slots)
  /\ (forall startDate endDate,
        endDate - startDate <= (2 ^ 32 - 2) * msPerDay ->
        exists labels,
          run (computeAvailableDates availability bookings startDate endDate
                 slotDurationMinutes busyTimes) c = Ok labels).
Proof.
  intros Hd. split.
  - intros date. now apply computeAvailableSlots_returns.
  - intros startDate endDate Hrange.
    destruct (daysOfRange_returns _ _ Hrange) as [days Hdays].
    now apply (computeAvailableDates_returns _ _ _ _ Hd _ _ _ days).
Qed.

Lemma positive_duration_never_throws_witness :
  exists labels,
    run (computeAvailableDates [block (time 9 0) (time 10 0)] [] day
           (time 72 0) 45 []) (clockAt (time 8 0)) = Ok labels.
Proof.
  apply (proj2 (positive_duration_never_throws
                  [block (time 9 0) (time 10 0)] [] 45 [] (clockAt (time 8 0))
                  ltac:(lia))).
  vm_compute. discriminate.
Defined.

(** X2: the dates [computeAvailableDates] returns are the labels of days in
    strictly ascending order (hence without repetition), each the start of
    a day between the start of [startDate]'s day and [endDate]. *)
Theorem dates_ascend_within_range (availability : list AvailabilitySlot)
    (bookings : list BookingSlot) (startDate endDate : Date)
    (slotDurationMinutes : Z) (busyTimes : list BusyTime) (c : Clock)
    (labels : list string) :
  run (computeAvailableDates availability bookings startDate endDate
         slotDurationMinutes busyTimes) c = Ok labels ->
  exists days,
    labels = List.map format_yyyy_MM_dd days
    /\ StronglySorted Z.lt days
    /\ forall d, In d days ->
         startOfDay d = d /\ startOfDay startDate <= d <= endDate.
Proof.
  rewrite run_computeAvailableDates. unfold JS.map.
  destruct (availableDays (currentTime c) availability bookings startDate
              endDate slotDurationMinutes busyTimes) as [kept|e] eqn:Hkept;
    simpl; [|discriminate].
  intros [= <-]. exists kept. split; [reflexivity|]. split.
  - unfold availableDays in Hkept.
    destruct (daysOfRange startDate endDate) as [days|e] eqn:Hdays;
      simpl in Hkept; [|discriminate].
    apply (StronglySorted_throwing_filter _ _ _ _ Hkept).
    apply StronglySorted_filter.
    apply Array_from_Ok in Hdays. rewrite Hdays.
    apply (StronglySorted_map Z.lt); [|apply indices_sorted].
    intros x y Hxy. unfold addDays, msPerDay. lia.
  - intros d Hd. apply (availableDays_In _ _ _ _ _ _ _ _ d Hkept) in Hd.
    destruct Hd as [[days [Hdays [Hin Hend]]] _].
    split; [apply (daysOfRange_startOfDay _ _ _ _ Hdays Hin)|].
    split; [|exact Hend].
    apply (Array_from_In _ _ _ d Hdays) in Hin. destruct Hin as [i [Hi ->]].
    unfold addDays, msPerDay. lia.
Qed.

Lemma dates_ascend_within_range_witness :
  exists days,
    ["2024-06-10"%string; "2024-06-12"%string] = List.map format_yyyy_MM_dd days
    /\ StronglySorted Z.lt days
    /\ forall d, In d days ->
         startOfDay d = d /\ startOfDay (time 9 0) <= d <= time 60 0.
Proof.
  apply (dates_ascend_within_range
           [block (time 9 0) (time 10 0); block (time 50 0) (time 51 0)]
           [] (time 9 0) (time 60 0) 30 [] (clockAt (time 8 0))).
  vm_compute. reflexivity.
Defined.

Lemma noConflict_app (bookings bookings' : list BookingSlot)
    (busyTimes busyTimes' : list BusyTime) (slotDurationMinutes : Z) (a : Date) :
  noConflict (bookings ++ bookings') (busyTimes ++ busyTimes')
    slotDurationMinutes a
  = noConflict bookings busyTimes slotDurationMinutes a
    && noConflict bookings' busyTimes' slotDurationMinutes a.
Proof.
  unfold noConflict. rewrite !existsb_app.
  repeat match goal with
         | |- context [existsb ?f ?l] => destruct (existsb f l)
         end; reflexivity.
Qed.

Lemma windowSlots_more_conflicts (now : Date)
    (bookings bookings' : list BookingSlot)
    (busyTimes busyTimes' : list BusyTime) (slotDurationMinutes : Z)
    (dayStart dayEnd : Date) (w : AvailabilitySlot) :
  windowSlots now (bookings ++ bookings') (busyTimes ++ busyTimes')
    slotDurationMinutes dayStart dayEnd w
  = JS.bind (windowSlots now bookings busyTimes slotDurationMinutes
               dayStart dayEnd w)
      (fun slots =>
         Ok (List.filter
               (fun s => noConflict bookings' busyTimes' slotDurationMinutes
                           (start s)) slots)).
Proof.
  unfold windowSlots, JS.map.
  destruct (generateSlotStarts (clampStart dayStart w) (clampEnd dayEnd w)
              slotDurationMinutes) as [starts|e]; simpl; [|reflexivity].
  f_equal. rewrite filter_map_commute.
  apply (f_equal (List.map (slotAt slotDurationMinutes))).
  rewrite <- (filter_and (noConflict bookings busyTimes slotDurationMinutes)
                (fun a => noConflict bookings' busyTimes' slotDurationMinutes
                            (start (slotAt slotDurationMinutes a)))).
  apply List.filter_ext. intros a. apply noConflict_app.
Qed.

(** X3: bookings and busy times only ever remove slots: with further
    bookings and busy times [computeAvailableSlots] returns exactly the
    slots it returned before that none of the further ones overlaps, in the
    same order (and it throws exactly when it threw before). *)
Theorem more_conflicts_only_remove_slots (availability : list AvailabilitySlot)
    (bookings bookings' : list BookingSlot) (date : Date)
    (slotDurationMinutes : Z) (busyTimes busyTimes' : list BusyTime)
    (c : Clock) :
  run (computeAvailableSlots availability (bookings ++ bookings') date
         slotDurationMinutes (busyTimes ++ busyTimes')) c
  = JS.bind
      (run (computeAvailableSlots availability bookings date
              slotDurationMinutes busyTimes) c)
      (fun slots =>
         Ok (List.filter
               (fun s => noConflict bookings' busyTimes' slotDurationMinutes
                           (start s)) slots)).
Proof.
  rewrite !run_computeAvailableSlots, <- flatMap_filtered.
  apply flatMap_ext. intros w _. apply windowSlots_more_conflicts.
Qed.

(** A booking 09:30-10:00 added to a free 09:00-10:30 removes the middle
    slot and nothing else. *)
Lemma more_conflicts_only_remove_slots_witness :
  run (computeAvailableSlots [block (time 9 0) (time 10 30)]
         ([] ++ [booking (time 9 30) (time 10 0)]) day 30 ([] ++ []))
    (clockAt (time 8 0))
  = Ok [span (time 9 0) (time 9 30); span (time 10 0) (time 10 30)].
Proof. rewrite more_conflicts_only_remove_slots. vm_compute. reflexivity. Defined.

Lemma existsb_Permutation {A} (f : A -> bool) (l l' : list A) :
  Permutation l l' -> existsb f l = existsb f l'.
Proof.
  induction 1 as [|x l l' _ IH|x y l|l l' l'' _ IH1 _ IH2]; simpl.
  - reflexivity.
  - now rewrite IH.
  - destruct (f x), (f y); reflexivity.
  - congruence.
Qed.

Lemma noConflict_Permutation (bookings bookings' : list BookingSlot)
    (busyTimes busyTimes' : list BusyTime) (slotDurationMinutes : Z) (a : Date) :
  Permutation bookings bookings' -> Permutation busyTimes busyTimes' ->
  noConflict bookings busyTimes slotDurationMinutes a
  = noConflict bookings' busyTimes' slotDurationMinutes a.
Proof.
  intros Hbk Hbusy. unfold noConflict.
  now rewrite (existsb_Permutation _ _ _ Hbk), (existsb_Permutation _ _ _ Hbusy).
Qed.

Lemma existsb_pointwise {A} (f g : A -> bool) (l : list A) :
  (forall x, f x = g x) -> existsb f l = existsb g l.
Proof.
  intros H. induction l as [|x l IH]; simpl; [reflexivity|].
  now rewrite H, IH.
Qed.

(** X4: the order in which bookings and busy times are listed is
    irrelevant: both aggregators return the same on any rearrangement of
    the two lists. *)
Theorem conflict_order_is_irrelevant (availability : list AvailabilitySlot)
    (bookings bookings' : list BookingSlot) (date startDate endDate : Date)
    (slotDurationMinutes : Z) (busyTimes busyTimes' : list BusyTime)
    (c : Clock) :
  Permutation bookings bookings' -> Permutation busyTimes busyTimes' ->
  run (computeAvailableSlots availability bookings date slotDurationMinutes
         busyTimes) c
  = run (computeAvailableSlots availability bookings' date slotDurationMinutes
           busyTimes') c
  /\ run (computeAvailableDates availability bookings startDate endDate
            slotDurationMinutes busyTimes) c
     = run (computeAvailableDates availability bookings' startDate endDate
              slotDurationMinutes busyTimes') c.
Proof.
  intros Hbk Hbusy.
  assert (Hsame : forall a,
            noConflict bookings busyTimes slotDurationMinutes a
            = noConflict bookings' busyTimes' slotDurationMinutes a)
    by (intros a; now apply noConflict_Permutation).
  split.
  - rewrite !run_computeAvailableSlots. apply flatMap_ext. intros w _.
    unfold windowSlots.
    destruct (generateSlotStarts (clampStart (startOfDay date) w)
                (clampEnd (endOfDay date) w) slotDurationMinutes);
      simpl; [|reflexivity].
    do 2 f_equal. now apply List.filter_ext.
  - rewrite !run_computeAvailableDates. f_equal. unfold availableDays.
    destruct (daysOfRange startDate endDate) as [days|e]; simpl; [|reflexivity].
    apply throwing_filter_ext. intros d _. unfold dayHasSlot.
    destruct (Datatypes.length
                (availabilityForDate availability (startOfDay d) (endOfDay d))
              =? 0)%nat; [reflexivity|].
    unfold checkDayHasAvailableSlot. apply some_ext. intros w _.
    destruct (generateSlotStarts _ _ slotDurationMinutes); simpl; [|reflexivity].
    f_equal. now apply existsb_pointwise.
Qed.

Lemma conflict_order_is_irrelevant_witness :
  run (computeAvailableSlots [block (time 9 0) (time 12 0)]
         [booking (time 9 0) (time 9 30); booking (time 11 0) (time 12 0)]
         day 30 []) (clockAt (time 8 0))
  = run (computeAvailableSlots [block (time 9 0) (time 12 0)]
           [booking (time 11 0) (time 12 0); booking (time 9 0) (time 9 30)]
           day 30 []) (clockAt (time 8 0)).
Proof.
  apply (conflict_order_is_irrelevant [block (time 9 0) (time 12 0)]
           [booking (time 9 0) (time 9 30); booking (time 11 0) (time 12 0)]
           [booking (time 11 0) (time 12 0); booking (time 9 0) (time 9 30)]
           day day day 30 [] [] (clockAt (time 8 0))).
  - apply perm_swap.
  - apply perm_nil.
Defined.

Lemma StronglySorted_app {A} (R : A -> A -> Prop) (xs ys : list A) :
  StronglySorted R xs -> StronglySorted R ys ->
  (forall x y, In x xs -> In y ys -> R x y) ->
  StronglySorted R (xs ++ ys).
Proof.
  intros Hxs Hys Hcross. induction Hxs as [|x xs Hxs IH Hx]; simpl; [exact Hys|].
  constructor.
  - apply IH. intros a b Ha Hb. apply Hcross; [now right|exact Hb].
  - rewrite Forall_forall in *. intros y Hy. apply in_app_or in Hy.
    destruct Hy as [Hy|Hy]; [now apply Hx|apply Hcross; [now left|exact Hy]].
Qed.

(** The slots of one block are in ascending order, each ending at or before
    the next one starts. *)
Lemma windowSlots_ascending (now : Date) (bookings : list BookingSlot)
    (busyTimes : list BusyTime) (slotDurationMinutes : Z)
    (dayStart dayEnd : Date) (w : AvailabilitySlot) (slots : list BusyTime) :
  0 < slotDurationMinutes ->
  windowSlots now bookings busyTimes slotDurationMinutes dayStart dayEnd w
    = Ok slots ->
  StronglySorted (fun s t => end_ s <= start t) slots.
Proof.
  intros Hd. unfold windowSlots, JS.map.
  destruct (generateSlotStarts (clampStart dayStart w) (clampEnd dayEnd w)
              slotDurationMinutes) as [starts|e] eqn:Hgen; simpl; [|discriminate].
  intros [= <-].
  apply (StronglySorted_map
           (fun a b => a + slotDurationMinutes * 60000 <= b)).
  { intros a b Hab. simpl. unfold addMinutes, msPerMinute. lia. }
  do 2 apply StronglySorted_filter.
  destruct (Z_le_gt_dec
              ((clampEnd dayEnd w - clampStart dayStart w)
               / (slotDurationMinutes * 60000)) JS.max_array_length)
    as [Hle|Hgt].
  - rewrite generateSlotStarts_nonzero in Hgen by (try lia; exact Hle).
    injection Hgen as <-.
    apply (StronglySorted_map Z.lt); [|apply indices_sorted].
    intros i j Hij. nia.
  - rewrite generateSlotStarts_too_many in Hgen by lia. discriminate.
Qed.

(** Blocks none of which is reversed and each of which ends at or before
    the next one starts: every block then ends at or before every later
    one starts. *)
Lemma consecutive_blocks_ordered (availability : list AvailabilitySlot) :
  Forall wellFormed availability ->
  Sorted (fun w w' => endDateTime w <= startDateTime w') availability ->
  StronglySorted (fun w w' => endDateTime w <= startDateTime w') availability.
Proof.
  intros Hwf Hsorted.
  induction Hsorted as [|w ws Hsorted IH Hhd]; [constructor|].
  inversion Hwf as [|w0 ws0 Hw Hws]; subst.
  specialize (IH Hws). constructor; [exact IH|].
  destruct Hhd as [|w' ws' Hww']; [constructor|].
  inversion IH as [|w1 ws1 _ Hafter]; subst.
  inversion Hws as [|w2 ws2 Hw' _]; subst. unfold wellFormed in Hw'.
  constructor; [exact Hww'|].
  rewrite Forall_forall in *. intros z Hz. specialize (Hafter z Hz). lia.
Qed.

(** X5: when no availability block is reversed (none starts after it
    ends), each block ends at or before the next one in the list starts,
    and the duration is positive, the slots [computeAvailableSlots] returns
    are in ascending order and never overlap each other: each ends at or
    before every later one starts. In particular this holds for a single
    block that is not reversed. *)
Theorem ordered_blocks_give_ordered_slots (availability : list AvailabilitySlot)
    (bookings : list BookingSlot) (date : Date) (slotDurationMinutes : Z)
    (busyTimes : list BusyTime) (c : Clock) (slots : list BusyTime) :
  0 < slotDurationMinutes ->
  Forall wellFormed availability ->
  Sorted (fun w w' => endDateTime w <= startDateTime w') availability ->
  run (computeAvailableSlots availability bookings date slotDurationMinutes
         busyTimes) c = Ok slots ->
  StronglySorted (fun s t => end_ s <= start t) slots.
Proof.
  intros Hd Hwf Hconsecutive.
  pose proof (consecutive_blocks_ordered availability Hwf Hconsecutive)
    as Hsorted.
  rewrite run_computeAvailableSlots.
  assert (Hws : StronglySorted (fun w w' => endDateTime w <= startDateTime w')
                  (availabilityForDate availability (startOfDay date)
                     (endOfDay date)))
    by (unfold availabilityForDate; now apply StronglySorted_filter).
  assert (Hmeets : forall w,
            In w (availabilityForDate availability (startOfDay date)
                    (endOfDay date)) ->
            meetsDay (startOfDay date) (endOfDay date) w)
    by (intros w Hw; now apply availabilityForDate_In in Hw).
  revert slots Hmeets.
  induction Hws as [|w ws Hws IH Hw]; simpl; intros slots Hmeets Hrun.
  - injection Hrun as <-. constructor.
  - destruct (windowSlots (currentTime c) bookings busyTimes
                slotDurationMinutes (startOfDay date) (endOfDay date) w)
      as [ys|e] eqn:Hys; simpl in Hrun; [|discriminate].
    destruct (JS.flatMap _ ws) as [yss|e] eqn:Hyss; simpl in Hrun;
      [|discriminate].
    injection Hrun as <-.
    apply StronglySorted_app.
    + now apply (windowSlots_ascending _ _ _ _ _ _ _ _ Hd Hys).
    + apply IH; [|reflexivity]. intros w' Hw'. apply Hmeets. now right.
    + intros s t Hs Ht.
      apply (windowSlots_In _ _ _ _ _ _ _ _ s Hys) in Hs.
      destruct Hs as [starts [a [Hgen [Ha [_ [_ ->]]]]]].
      apply (flatMap_In _ _ _ t Hyss) in Ht.
      destruct Ht as [w' [zs [Hw' [Hzs Ht]]]].
      apply (windowSlots_In _ _ _ _ _ _ _ _ t Hzs) in Ht.
      destruct Ht as [starts' [b [Hgen' [Hb [_ [_ ->]]]]]].
      pose proof (generateSlotStarts_positive_bounds _ _ _ _ _ Hd Hgen Ha)
        as [_ Hend].
      pose proof (generateSlotStarts_positive_bounds _ _ _ _ _ Hd Hgen' Hb)
        as [Hstart _].
      rewrite Forall_forall in Hw. specialize (Hw w' Hw').
      rewrite clampEnd_min in Hend. rewrite clampStart_max in Hstart.
      simpl. lia.
Qed.

Lemma ordered_blocks_give_ordered_slots_witness :
  StronglySorted (fun s t => end_ s <= start t)
    [span (time 9 0) (time 9 45); span (time 14 0) (time 14 45);
     span (time 14 45) (time 15 30)].
Proof.
  apply (ordered_blocks_give_ordered_slots
           [block (time 9 0) (time 10 0); block (time 14 0) (time 16 0)]
           [] day 45 [] (clockAt (time 8 0))).
  - lia.
  - repeat constructor; vm_compute; discriminate.
  - repeat constructor. vm_compute. discriminate.
  - vm_compute. reflexivity.
Defined.

(** A block contributes at most as many slots as fit between the start
    and the end of the queried day. *)
Lemma windowSlots_length (now : Date) (bookings : list BookingSlot)
    (busyTimes : list BusyTime) (slotDurationMinutes : Z) (date : Date)
    (w : AvailabilitySlot) (zs : list BusyTime) :
  0 < slotDurationMinutes ->
  windowSlots now bookings busyTimes slotDurationMinutes
    (startOfDay date) (endOfDay date) w = Ok zs ->
  (List.length zs
   <= Z.to_nat ((endOfDay date - startOfDay date)
                / (slotDurationMinutes * msPerMinute)))%nat.
Proof.
  intros Hd Hzs. unfold windowSlots, JS.map in Hzs.
  destruct (generateSlotStarts (clampStart (startOfDay date) w)
              (clampEnd (endOfDay date) w) slotDurationMinutes)
    as [starts|e] eqn:Hgen; simpl in Hzs; [|discriminate].
  injection Hzs as <-. rewrite length_map.
  etransitivity; [apply filter_length_le|].
  etransitivity; [apply filter_length_le|].
  assert (Hq : (clampEnd (endOfDay date) w - clampStart (startOfDay date) w)
               / (slotDurationMinutes * 60000)
               <= (endOfDay date - startOfDay date)
                  / (slotDurationMinutes * msPerMinute)).
  { unfold msPerMinute. apply Z.div_le_mono; [lia|].
    apply clamped_range_within_day. apply startOfDay_le_endOfDay. }
  destruct (Z_le_gt_dec
              ((clampEnd (endOfDay date) w - clampStart (startOfDay date) w)
               / (slotDurationMinutes * 60000)) JS.max_array_length)
    as [Hle|Hgt].
  - rewrite generateSlotStarts_nonzero in Hgen by (try lia; exact Hle).
    injection Hgen as <-. rewrite length_map, indices_length. lia.
  - rewrite generateSlotStarts_too_many in Hgen by lia. discriminate.
Qed.

(** X6: for a positive duration [computeAvailableSlots] returns, per
    availability block, at most as many slots as durations fit between the
    start and the last millisecond of the queried day:
    [floor((endOfDay - startOfDay) / duration)]; on a day of 24 hours or
    less these are at most 1439 per block. *)
Theorem slot_count_is_bounded (availability : list AvailabilitySlot)
    (bookings : list BookingSlot) (date : Date) (slotDurationMinutes : Z)
    (busyTimes : list BusyTime) (c : Clock) (slots : list BusyTime) :
  0 < slotDurationMinutes ->
  run (computeAvailableSlots availability bookings date slotDurationMinutes
         busyTimes) c = Ok slots ->
  Z.of_nat (List.length slots)
  <= Z.of_nat (List.length availability)
     * ((endOfDay date - startOfDay date) / (slotDurationMinutes * msPerMinute))
  /\ (endOfDay date - startOfDay date < 24 * 60 * msPerMinute ->
      Z.of_nat (List.length slots) <= Z.of_nat (List.length availability) * 1439).
Proof.
  intros Hd. rewrite run_computeAvailableSlots. intros Hrun.
  set (perBlock := (endOfDay date - startOfDay date)
                   / (slotDurationMinutes * msPerMinute)).
  pose proof (startOfDay_le_endOfDay date) as Hday.
  assert (Hpos : 0 <= perBlock)
    by (unfold perBlock, msPerMinute; apply Z.div_pos; lia).
  assert (Hlen : (List.length slots
                  <= List.length (availabilityForDate availability
                                    (startOfDay date) (endOfDay date))
                     * Z.to_nat perBlock)%nat).
  { apply (flatMap_length _ _ _ _
             (fun w zs _ Hzs => windowSlots_length _ _ _ _ _ _ _ Hd Hzs) Hrun). }
  assert (Hfilter : (List.length (availabilityForDate availability
                                    (startOfDay date) (endOfDay date))
                     <= List.length availability)%nat)
    by apply filter_length_le.
  split; [nia|].
  intros Hshort.
  assert (Hper : perBlock <= 1439).
  { unfold perBlock, msPerMinute in *.
    assert (H : endOfDay date - startOfDay date
                < slotDurationMinutes * 60000 * 1440) by lia.
    pose proof (Z.div_lt_upper_bound (endOfDay date - startOfDay date)
                  (slotDurationMinutes * 60000) 1440 ltac:(lia) H).
    lia. }
  nia.
Qed.

Lemma slot_count_is_bounded_witness :
  Z.of_nat (List.length [span (time 9 0) (time 9 30); span (time 9 30) (time 10 0)])
  <= Z.of_nat (List.length [block (time 9 0) (time 10 0)])
     * ((endOfDay day - startOfDay day) / (30 * msPerMinute))
  /\ Z.of_nat (List.length [span (time 9 0) (time 9 30); span (time 9 30) (time 10 0)])
     <= Z.of_nat (List.length [block (time 9 0) (time 10 0)]) * 1439.
Proof.
  destruct (slot_count_is_bounded [block (time 9 0) (time 10 0)] [] day 30 []
              (clockAt (time 8 0))
              [span (time 9 0) (time 9 30); span (time 9 30) (time 10 0)])
    as [Hday Hfull].
  - lia.
  - vm_compute. reflexivity.
  - split; [exact Hday|]. apply Hfull. vm_compute. reflexivity.
Defined.

(** X7: a range whose end lies before the day of its start yields no date,
    whatever the availability and the duration, zero and negative durations
    included: nothing is thrown, no day is examined. *)
Theorem reversed_range_has_no_dates (availability : list AvailabilitySlot)
    (bookings : list BookingSlot) (startDate endDate : Date)
    (slotDurationMinutes : Z) (busyTimes : list BusyTime) (c : Clock) :
  endDate < startOfDay startDate ->
  run (computeAvailableDates availability bookings startDate endDate
         slotDurationMinutes busyTimes) c = Ok [].
Proof.
  intros Hrev. rewrite run_computeAvailableDates. unfold availableDays.
  pose proof (startOfDay_le startDate) as Hstart.
  destruct (daysOfRange_returns startDate endDate) as [days Hdays].
  { unfold msPerDay. change (2 ^ 32 - 2) with 4294967294. lia. }
  rewrite Hdays. simpl. rewrite filter_none; [reflexivity|].
  intros d Hd. apply (Array_from_In _ _ _ d Hdays) in Hd.
  destruct Hd as [i [Hi ->]].
  apply andb_false_iff. right. apply Z.leb_gt.
  unfold addDays, msPerDay. lia.
Qed.

Lemma reversed_range_has_no_dates_witness :
  run (computeAvailableDates [block (time 9 0) (time 10 0)] [] (time 9 0)
         (time (-1) 0) 0 []) (clockAt (time 8 0)) = Ok [].
Proof.
  apply (reversed_range_has_no_dates [block (time 9 0) (time 10 0)] []
           (time 9 0) (time (-1) 0) 0 [] (clockAt (time 8 0))).
  vm_compute. reflexivity.
Defined.










(* ================================================================== *)
(** * Processing bookings with their statuses *)
(* ================================================================== *)

Section ProcessBookings.

Variable AttendeeStatus : Type.
Variable T : Type.
Variable properties : T -> Blocks.BookingWithGoogleEvent.
Variable getBookingAttendeeStatuses :
  list Blocks.Request.t -> Blocks.Statuses AttendeeStatus.

Local Abbreviation process :=
  (Blocks.processBookingsWithStatuses AttendeeStatus T properties
     getBookingAttendeeStatuses).
Local Abbreviation requests := (Blocks.statusRequests T properties).

Lemma truthy_false (o : Blocks.optional string) :
  Blocks.truthy o = false <->
  o = Blocks.Undefined \/ o = Blocks.Null \/ o = Blocks.Value EmptyString.
Proof.
  destruct o as [| |s]; simpl.
  - tauto.
  - tauto.
  - rewrite negb_false_iff, String.eqb_eq. split.
    + intros ->. auto.
    + intros [H|[H|H]]; try discriminate. now injection H.
Qed.

(** X12: [processBookingsWithStatuses] returns a booking exactly when it has
    no Google event (the id is missing, [null] or the empty string), or the
    fetched statuses have no entry for it, or its entry is not cancelled;
    the returned booking carries the guest status of its entry, and none
    without an entry. *)
Theorem active_bookings_characterised (bookings : list T)
    (p : Blocks.ProcessedBooking AttendeeStatus T) :
  In p (snd (process bookings)) <->
  In (Blocks.booking p) bookings
  /\ (let event := Blocks.googleEventId (properties (Blocks.booking p)) in
      let entry := fst (process bookings)
                     (Blocks._id (properties (Blocks.booking p))) in
      (event = Blocks.Undefined \/ event = Blocks.Null
       \/ event = Blocks.Value EmptyString
       \/ entry = None
       \/ exists status, entry = Some status
                         /\ Blocks.Status.isCancelled status = false)
      /\ Blocks.guestStatus p
         = match entry with
           | Some status => Blocks.Status.guestStatus status
           | None => None
           end).
Proof.
  unfold Blocks.processBookingsWithStatuses. simpl.
  set (statuses := getBookingAttendeeStatuses _).
  rewrite in_map_iff. split.
  - intros [b [<- Hb]]. apply List.filter_In in Hb. destruct Hb as [Hb Hkeep].
    simpl. split; [exact Hb|]. split; [|reflexivity].
    apply orb_true_iff in Hkeep. destruct Hkeep as [Hevent|Hstatus].
    + apply negb_true_iff, truthy_false in Hevent. tauto.
    + destruct (statuses (Blocks._id (properties b))) as [status|];
        [|tauto].
      apply negb_true_iff in Hstatus. right. right. right. right.
      now exists status.
  - destruct p as [b status]. simpl. intros [Hb [Hkeep ->]].
    exists b. split; [reflexivity|].
    apply List.filter_In. split; [exact Hb|].
    apply orb_true_iff.
    destruct Hkeep as [H|[H|[H|[H|[st [H Hc]]]]]].
    + left. apply negb_true_iff, truthy_false. auto.
    + left. apply negb_true_iff, truthy_false. auto.
    + left. apply negb_true_iff, truthy_false. auto.
    + right. now rewrite H.
    + right. rewrite H. now apply negb_true_iff.
Qed.

(** X13: the server action is asked only about bookings that have a Google
    event: every request carries the id of an input booking together with
    that booking's non-empty event id, never [null], and the guest email or
    the empty string when the booking has none; there is one request per
    such booking. *)
Theorem requests_only_for_google_events (bookings : list T) :
  (forall r, In r (requests bookings) ->
     exists b eventId,
       In b bookings
       /\ Blocks.googleEventId (properties b) = Blocks.Value eventId
       /\ eventId <> EmptyString
       /\ Blocks.Request.id r = Blocks._id (properties b)
       /\ Blocks.Request.googleEventId r = Some eventId
       /\ Blocks.Request.guestEmail r
          = match Blocks.guestEmail (properties b) with
            | Blocks.Value email => email
            | _ => EmptyString
            end)
  /\ List.length (requests bookings)
     = List.length
         (List.filter
            (fun b => Blocks.truthy (Blocks.googleEventId (properties b)))
            bookings)
  /\ (List.length (requests bookings) <= List.length bookings)%nat
  /\ fst (process bookings) = getBookingAttendeeStatuses (requests bookings).
Proof.
  unfold Blocks.statusRequests. split; [|split; [|split]].
  - intros r Hr. apply in_map_iff in Hr. destruct Hr as [b [<- Hb]].
    apply List.filter_In in Hb. destruct Hb as [Hb Hevent].
    destruct (Blocks.googleEventId (properties b)) as [| |eventId] eqn:E;
      try discriminate.
    exists b, eventId. simpl. rewrite E. simpl.
    split; [exact Hb|]. split; [reflexivity|].
    split; [intros ->; discriminate|].
    split; [reflexivity|]. split; [reflexivity|].
    now destruct (Blocks.guestEmail (properties b)).
  - apply length_map.
  - rewrite length_map. apply filter_length_le.
  - reflexivity.
Qed.

(** X14: the returned bookings are input bookings in their input order, at
    most as many; and when no fetched status is cancelled every booking
    comes back, in order. *)
Theorem active_bookings_keep_order (bookings : list T) :
  (exists keep,
     List.map Blocks.booking (snd (process bookings))
     = List.filter keep bookings)
  /\ (List.length (snd (process bookings)) <= List.length bookings)%nat
  /\ ((forall b status,
         In b bookings ->
         fst (process bookings) (Blocks._id (properties b)) = Some status ->
         Blocks.Status.isCancelled status = false) ->
      List.map Blocks.booking (snd (process bookings)) = bookings).
Proof.
  unfold Blocks.processBookingsWithStatuses. simpl.
  set (statuses := getBookingAttendeeStatuses _).
  split; [|split].
  - eexists. rewrite map_map. simpl. rewrite map_id. reflexivity.
  - rewrite length_map. apply filter_length_le.
  - intros Hnone. rewrite map_map. simpl. rewrite map_id.
    apply forallb_filter_id. apply forallb_forall. intros b Hb.
    apply orb_true_iff. right.
    destruct (statuses (Blocks._id (properties b))) as [status|] eqn:E;
      [|reflexivity].
    now rewrite (Hnone b status Hb E).
Qed.

End ProcessBookings.

(** Three bookings: one cancelled on Google Calendar, one accepted, one
    that never had a Google event. *)
Lemma active_bookings_characterised_witness :
  let properties (b : string * option string) :=
    {| Blocks._id := fst b;
       Blocks.googleEventId :=
         match snd b with
         | Some e => Blocks.Value e
         | None => Blocks.Null
         end;
       Blocks.guestEmail := Blocks.Undefined |} in
  let statuses (_ : list Blocks.Request.t) (id : string) :=
    if String.eqb id "a" then
      Some {| Blocks.Status.isCancelled := true;
              Blocks.Status.guestStatus := Some "declined"%string |}
    else if String.eqb id "b" then
      Some {| Blocks.Status.isCancelled := false;
              Blocks.Status.guestStatus := Some "accepted"%string |}
    else None in
  let bookings :=
    [("a"%string, Some "ev-a"%string); ("b"%string, Some "ev-b"%string);
     ("c"%string, None)] in
  snd (Blocks.processBookingsWithStatuses string _ properties statuses bookings)
  = [{| Blocks.booking := ("b"%string, Some "ev-b"%string);
        Blocks.guestStatus := Some "accepted"%string |};
     {| Blocks.booking := ("c"%string, None); Blocks.guestStatus := None |}]
  /\ In {| Blocks.booking := ("b"%string, Some "ev-b"%string);
           Blocks.guestStatus := Some "accepted"%string |}
       (snd (Blocks.processBookingsWithStatuses string _ properties statuses
               bookings)).
Proof.
  intros properties statuses bookings. split; [reflexivity|].
  apply (proj2 (active_bookings_characterised string _ properties statuses
                  bookings
                  {| Blocks.booking := ("b"%string, Some "ev-b"%string);
                     Blocks.guestStatus := Some "accepted"%string |})).
  split; [right; left; reflexivity|].
  split; [|reflexivity].
  right. right. right. right. eexists. split; reflexivity.
Defined.

Lemma requests_only_for_google_events_witness :
  let properties (b : string * option string) :=
    {| Blocks._id := fst b;
       Blocks.googleEventId :=
         match snd b with
         | Some e => Blocks.Value e
         | None => Blocks.Null
         end;
       Blocks.guestEmail := Blocks.Undefined |} in
  let bookings :=
    [("a"%string, Some "ev-a"%string); ("b"%string, Some EmptyString);
     ("c"%string, None)] in
  Blocks.statusRequests _ properties bookings
  = [{| Blocks.Request.id := "a"; Blocks.Request.googleEventId := Some "ev-a"%string;
        Blocks.Request.guestEmail := EmptyString |}]
  /\ (List.length (Blocks.statusRequests _ properties bookings)
      <= List.length bookings)%nat.
Proof.
  intros properties bookings. split; [reflexivity|].
  apply (requests_only_for_google_events string _ properties
           (fun _ _ => None) bookings).
Defined.

Lemma active_bookings_keep_order_witness :
  let properties (b : string * option string) :=
    {| Blocks._id := fst b;
       Blocks.googleEventId :=
         match snd b with
         | Some e => Blocks.Value e
         | None => Blocks.Null
         end;
       Blocks.guestEmail := Blocks.Undefined |} in
  let statuses (_ : list Blocks.Request.t) (id : string) :=
    if String.eqb id "b" then
      Some {| Blocks.Status.isCancelled := false;
              Blocks.Status.guestStatus := Some "accepted"%string |}
    else None in
  let bookings :=
    [("a"%string, Some "ev-a"%string); ("b"%string, Some "ev-b"%string);
     ("c"%string, None)] in
  List.map Blocks.booking
    (snd (Blocks.processBookingsWithStatuses string _ properties statuses
            bookings))
  = bookings.
Proof.
  intros properties statuses bookings.
  apply (proj2 (proj2 (active_bookings_keep_order string _ properties statuses
                         bookings))).
  intros b status _. unfold statuses. simpl.
  destruct (String.eqb (fst b) "b"); [|discriminate].
  now intros [= <-].
Defined.
